(** * Recommendation engine of mcp_server.py

    A shallow embedding of [RecommendationService] (src/mcp_server.py,
    lines 463-634) together with the parts of the document store it
    reads, and the properties of the engine stated in the specification.

    Modelling conventions.
    - Python [int] is [Z]; [//] is [Z.div] (both round towards minus
      infinity for a positive divisor).
    - Prices, averages and scores are exact rationals ([Q]); the rounding
      of binary64 arithmetic is not modelled.
    - A document field read with [dict.get] is an [option]; [None] stands
      for an absent key.
    - A MongoDB collection is the list of its documents in natural order.
      The [_id] of a document is the text [str] gives for its ObjectId:
      hexadecimal digits in lower case.  An id received as a string can
      spell the same ObjectId otherwise (upper-case digits, whitespace
      between bytes), and [ObjectId(s)] is modelled by the canonical text
      of [s]; where the code compares with [ObjectId(s)] the model
      compares with that text, and where it compares the strings
      themselves so does the model.
      Stored ids are taken to be well formed: [ObjectId] has a value for
      every string, where bson raises InvalidId on a malformed one.
    - A Python [dict] used as a tally is an association list in insertion
      order, since [max(d, key=d.get)] depends on that order.
    - An exception is a value of [exn]; functions that can raise return
      [res]. *)

From Stdlib Require Import List ZArith QArith Qabs Qminmax String Ascii Bool Lia.
From Stdlib Require Import Permutation Sorted DecimalString.
Import ListNotations.

Local Open Scope Z_scope.

(** ** Python values and built-ins *)

Module Py.

Inductive exn : Type :=
| ValueError (msg : string)
| OperationFailure (msg : string).

Inductive res (A : Type) : Type :=
| Returned (a : A)
| Raised (e : exn).
Arguments Returned {A} a.
Arguments Raised {A} e.

Definition bind {A B : Type} (m : res A) (k : A -> res B) : res B :=
  match m with
  | Returned a => k a
  | Raised e => Raised e
  end.

(** Truth value of an optional string: [None] and [''] are false. *)
Definition truthy (o : option string) : bool :=
  match o with
  | Some s => negb (String.eqb s EmptyString)
  | None => false
  end.

(** [d.get(key, default)] on a document field. *)
Definition get {A : Type} (field : option A) (default : A) : A :=
  match field with
  | Some v => v
  | None => default
  end.

(** [a == b] on two optional strings ([None == None] is true). *)
Definition eq_opt (a b : option string) : bool :=
  match a, b with
  | Some x, Some y => String.eqb x y
  | None, None => true
  | _, _ => false
  end.

(** [len(l)] as a Python int. *)
Definition len {A : Type} (l : list A) : Z := Z.of_nat (List.length l).

(** [l[:n]]: the first [n] elements, or all but the last [-n] when
    [n] is negative. *)
Definition slice_to {A : Type} (n : Z) (l : list A) : list A :=
  if 0 <=? n then firstn (Z.to_nat n) l
  else firstn (List.length l - Z.to_nat (- n)) l.

(** [x in l] for strings. *)
Definition mem (x : string) (l : list string) : bool :=
  existsb (String.eqb x) l.

Definition Qltb (x y : Q) : bool := negb (Qle_bool y x).

(** [max(0, x)]: the first argument is kept unless the second is
    strictly greater. *)
Definition max0 (x : Q) : Q := if Qltb 0 x then x else 0%Q.

(** [sum(l)] *)
Definition sum (l : list Q) : Q := fold_left Qplus l 0%Q.

(** *** dict in insertion order *)

Definition dict (V : Type) : Type := list (string * V).

Fixpoint dict_get {V : Type} (d : dict V) (k : string) : option V :=
  match d with
  | [] => None
  | (k', v) :: d' => if String.eqb k' k then Some v else dict_get d' k
  end.

(** [d[k] = v]: an existing key keeps its position, a new key goes
    last. *)
Fixpoint dict_set {V : Type} (d : dict V) (k : string) (v : V) : dict V :=
  match d with
  | [] => [(k, v)]
  | (k', v') :: d' =>
      if String.eqb k' k then (k', v) :: d' else (k', v') :: dict_set d' k v
  end.

(** [max(d, key=d.get)] for a non-empty dict with integer values, as a
    left-to-right scan that replaces the current best only by a strictly
    greater value. *)
Fixpoint max_scan (best : string * Z) (d : dict Z) : string :=
  match d with
  | [] => fst best
  | kv :: d' => max_scan (if snd best <? snd kv then kv else best) d'
  end.

(** [max(d, key=d.get) if d else None] *)
Definition max_key (d : dict Z) : option string :=
  match d with
  | [] => None
  | kv :: d' => Some (max_scan kv d')
  end.

(** *** list.sort(key=..., reverse=True)

    [lt x y] says that the key of [x] is strictly below the key of [y].
    The sort is stable: elements with equal keys keep their order. *)
Section Sort.
Context {A : Type} (lt : A -> A -> bool).

Fixpoint insert_desc (x : A) (l : list A) : list A :=
  match l with
  | [] => [x]
  | y :: l' => if lt x y then y :: insert_desc x l' else x :: y :: l'
  end.

Definition sort_desc (l : list A) : list A := fold_right insert_desc [] l.
End Sort.

End Py.
Import Py.

Notation "x <- m ;; k" := (bind m (fun x => k))
  (at level 61, m at next level, right associativity).

(** ** The document store (pymongo) *)

Module Mongo.

Record User : Type := {
  u_id : string;
  name : string
}.

Record Product : Type := {
  _id : string;
  category : option string;
  piece_type : option string;
  color : option string;
  price : Q;
  stock_quantity : Z
}.

Record Purchase : Type := {
  user_id : string;
  product_id : string;
  quantity : Z;
  purchase_date : Z
}.

(** [DatabaseManager]: the three collections. *)
Record DatabaseManager : Type := {
  users_collection : list User;
  products_collection : list Product;
  purchases_collection : list Purchase
}.

Definition is_hex (c : ascii) : bool :=
  let n := nat_of_ascii c in
  ((48 <=? n) && (n <=? 57) || (65 <=? n) && (n <=? 70)
   || (97 <=? n) && (n <=? 102))%nat.

(** ASCII whitespace, as [bytes.fromhex] skips it. *)
Definition is_space (c : ascii) : bool :=
  let n := nat_of_ascii c in
  ((n =? 32) || (9 <=? n) && (n <=? 13))%nat.

(** The lower-case form of a hexadecimal digit. *)
Definition lower_hex (c : ascii) : ascii :=
  let n := nat_of_ascii c in
  if ((65 <=? n) && (n <=? 70))%nat then ascii_of_nat (n + 32) else c.

(** [bytes.fromhex(s).hex()], or [None] where [fromhex] raises: two
    hexadecimal digits per byte, whitespace allowed before a byte and at
    the end. *)
Fixpoint fromhex (s : string) : option string :=
  match s with
  | EmptyString => Some EmptyString
  | String c s' =>
      if is_space c then fromhex s'
      else
        match s' with
        | EmptyString => None
        | String d s'' =>
            if is_hex c && is_hex d then
              match fromhex s'' with
              | Some rest =>
                  Some (String (lower_hex c) (String (lower_hex d) rest))
              | None => None
              end
            else None
        end
  end.

(** [ObjectId.is_valid(s)] for a string: 24 characters that [fromhex]
    accepts. *)
Definition ObjectId_is_valid (s : string) : bool :=
  (String.length s =? 24)%nat
  && match fromhex s with Some _ => true | None => false end.

(** [str(ObjectId(s))]: the canonical text of the id that [s] spells. *)
Definition ObjectId (s : string) : string :=
  match fromhex s with
  | Some canonical => canonical
  | None => s
  end.

(** [Cursor.limit(n)]: a limit of 0 is no limit; a negative limit is
    its absolute value (returned in a single batch). *)
Definition cursor_limit {A : Type} (n : Z) (cursor : list A) : list A :=
  if n =? 0 then cursor else firstn (Z.to_nat (Z.abs n)) cursor.

(** [collection.find(query)] *)
Definition find {A : Type} (query : A -> bool) (coll : list A) : list A :=
  filter query coll.

(** [collection.find_one(query)] *)
Definition find_one {A : Type} (query : A -> bool) (coll : list A)
  : option A :=
  List.find query coll.

(** Query operators on products; [oid] and [oids] are ObjectIds, that is
    canonical texts. *)
Definition id_eq (oid : string) (p : Product) : bool :=
  String.eqb (_id p) oid.
Definition id_in (oids : list string) (p : Product) : bool :=
  mem (_id p) oids.
Definition id_nin (oids : list string) (p : Product) : bool :=
  negb (mem (_id p) oids).
Definition field_eq (field : Product -> option string) (v : string)
           (p : Product) : bool :=
  match field p with
  | Some x => String.eqb x v
  | None => false
  end.
Definition stock_gt0 (p : Product) : bool := 0 <? stock_quantity p.
Definition price_between (lo hi : Q) (p : Product) : bool :=
  Qle_bool lo (price p) && Qle_bool (price p) hi.

(** One output document of the [$group] stage. *)
Record PopularItem : Type := {
  group_id : string;
  total_quantity : Z;
  total_sales : Z
}.

(** [$group] by [product_id] with [$sum: '$quantity'] and [$sum: 1];
    groups are kept in order of first appearance. *)
Definition group_step (groups : dict (Z * Z)) (purchase : Purchase)
  : dict (Z * Z) :=
  let '(q, n) := get (dict_get groups (product_id purchase)) (0, 0) in
  dict_set groups (product_id purchase) (q + quantity purchase, n + 1).

Definition group_by_product (purchases : list Purchase)
  : list PopularItem :=
  map (fun kv => {| group_id := fst kv;
                    total_quantity := fst (snd kv);
                    total_sales := snd (snd kv) |})
      (fold_left group_step purchases []).

Definition quantity_lt (a b : PopularItem) : bool :=
  total_quantity a <? total_quantity b.

(** [purchases.aggregate([$group, {$sort: {total_quantity: -1}},
    {$limit: n}])].  The server rejects a [$limit] that is not
    positive.  Groups with equal totals stay in order of first
    appearance (the server leaves their order open). *)
Definition aggregate_popular (purchases : list Purchase) (n : Z)
  : res (list PopularItem) :=
  if n <=? 0 then Raised (OperationFailure "the limit must be positive")
  else Returned
         (firstn (Z.to_nat n)
                 (sort_desc quantity_lt (group_by_product purchases))).

Definition date_lt (a b : Purchase) : bool :=
  purchase_date a <? purchase_date b.

End Mongo.
Import Mongo.

(** ** PurchaseService.get_user_purchases

    [find({'user_id': user_id}).sort('purchase_date', -1)]; purchases with
    equal dates stay in natural order. *)

Definition get_user_purchases (db : DatabaseManager) (uid : string)
  : res (list Purchase) :=
  if negb (ObjectId_is_valid uid) then
    Raised (ValueError "ID do usuário inválido")
  else
    Returned (sort_desc date_lt
                (find (fun p => String.eqb (user_id p) uid)
                      (purchases_collection db))).

(** ** RecommendationService *)

(** The dict returned by [_analyze_user_preferences]. *)
Record Preferences : Type := {
  preferred_category : option string;
  preferred_piece_type : option string;
  preferred_color : option string;
  average_price : Q;
  categories : dict Z;
  piece_types : dict Z;
  colors : dict Z
}.

(** A serialized product document, with the key [recommendation_score]
    once it has been scored. *)
Record Document : Type := {
  doc : Product;
  recommendation_score : option Q
}.

Definition serialize_document (p : Product) : Document :=
  {| doc := p; recommendation_score := None |}.

(** The four accumulators of the loop of [_analyze_user_preferences]. *)
Record Counts : Type := {
  acc_categories : dict Z;
  acc_piece_types : dict Z;
  acc_colors : dict Z;
  acc_price_range : list Q
}.

(** [d[k] = d.get(k, 0) + q] *)
Definition count (d : dict Z) (k : string) (q : Z) : dict Z :=
  dict_set d k (get (dict_get d k) 0 + q).

Definition analyze_step (db : DatabaseManager) (acc : Counts)
           (purchase : Purchase) : Counts :=
  match find_one (id_eq (ObjectId (product_id purchase)))
                 (products_collection db) with
  | Some product =>
      {| acc_categories :=
           count (acc_categories acc) (get (category product) EmptyString)
                 (quantity purchase);
         acc_piece_types :=
           count (acc_piece_types acc) (get (piece_type product) EmptyString)
                 (quantity purchase);
         acc_colors :=
           count (acc_colors acc) (get (color product) EmptyString)
                 (quantity purchase);
         acc_price_range := acc_price_range acc ++ [price product] |}
  | None => acc
  end.

Definition analyze_loop (db : DatabaseManager) (purchases : list Purchase)
  : Counts :=
  fold_left (analyze_step db) purchases
            {| acc_categories := []; acc_piece_types := [];
               acc_colors := []; acc_price_range := [] |}.

(** [sum(price_range) / len(price_range) if price_range else 0] *)
Definition mean (price_range : list Q) : Q :=
  match price_range with
  | [] => 0%Q
  | _ :: _ => (sum price_range / inject_Z (len price_range))%Q
  end.

Definition _analyze_user_preferences (db : DatabaseManager)
           (purchases : list Purchase) : Preferences :=
  let acc := analyze_loop db purchases in
  {| preferred_category := max_key (acc_categories acc);
     preferred_piece_type := max_key (acc_piece_types acc);
     preferred_color := max_key (acc_colors acc);
     average_price := mean (acc_price_range acc);
     categories := acc_categories acc;
     piece_types := acc_piece_types acc;
     colors := acc_colors acc |}.

Definition _calculate_recommendation_score (product : Document)
           (preferences : Preferences) : Q :=
  let score := 0%Q in
  let score :=
    if eq_opt (category (doc product)) (preferred_category preferences)
    then (score + 3)%Q else score in
  let score :=
    if eq_opt (piece_type (doc product)) (preferred_piece_type preferences)
    then (score + 2)%Q else score in
  let score :=
    if eq_opt (color (doc product)) (preferred_color preferences)
    then (score + (3 # 2))%Q else score in
  let score :=
    if Qltb 0 (average_price preferences) then
      let price_diff :=
        Qabs (price (doc product) - average_price preferences) in
      let price_score :=
        max0 (1 - price_diff / average_price preferences) in
      (score + price_score)%Q
    else score in
  score.

(** Strategy 1: same category. *)
Definition category_strategy (db : DatabaseManager)
           (preferences : Preferences) (purchased_product_ids : list string)
           (limit : Z) : list Document :=
  if truthy (preferred_category preferences) then
    let query p :=
      field_eq category (get (preferred_category preferences) EmptyString) p
      && id_nin (map ObjectId purchased_product_ids) p && stock_gt0 p in
    map serialize_document
        (cursor_limit (limit / 3) (find query (products_collection db)))
  else [].

(** Strategy 2: same piece type. *)
Definition piece_type_strategy (db : DatabaseManager)
           (preferences : Preferences) (purchased_product_ids : list string)
           (limit : Z) (recommendations : list Document) : list Document :=
  if truthy (preferred_piece_type preferences)
     && (len recommendations <? limit) then
    let remaining := limit - len recommendations in
    let query p :=
      field_eq piece_type
               (get (preferred_piece_type preferences) EmptyString) p
      && id_nin (map ObjectId purchased_product_ids) p && stock_gt0 p in
    map serialize_document
        (cursor_limit (remaining / 2) (find query (products_collection db)))
  else [].

(** Strategy 3: similar price. *)
Definition price_strategy (db : DatabaseManager)
           (preferences : Preferences) (purchased_product_ids : list string)
           (limit : Z) (recommendations : list Document) : list Document :=
  if Qltb 0 (average_price preferences)
     && (len recommendations <? limit) then
    let remaining := limit - len recommendations in
    let price_tolerance := (average_price preferences * (3 # 10))%Q in
    let query p :=
      price_between (average_price preferences - price_tolerance)%Q
                    (average_price preferences + price_tolerance)%Q p
      && id_nin (map ObjectId purchased_product_ids) p && stock_gt0 p in
    map serialize_document
        (cursor_limit remaining (find query (products_collection db)))
  else [].

(** The candidate list before deduplication. *)
Definition candidates (db : DatabaseManager) (preferences : Preferences)
           (purchased_product_ids : list string) (limit : Z)
  : list Document :=
  let recommendations := [] in
  let recommendations :=
    recommendations
      ++ category_strategy db preferences purchased_product_ids limit in
  let recommendations :=
    recommendations
      ++ piece_type_strategy db preferences purchased_product_ids limit
           recommendations in
  let recommendations :=
    recommendations
      ++ price_strategy db preferences purchased_product_ids limit
           recommendations in
  recommendations.

(** The deduplication loop; [seen_ids] is the set built so far. *)
Fixpoint unique_scored (preferences : Preferences)
         (recommendations : list Document) (seen_ids : list string)
  : list Document :=
  match recommendations with
  | [] => []
  | product :: rest =>
      if negb (mem (_id (doc product)) seen_ids) then
        {| doc := doc product;
           recommendation_score :=
             Some (_calculate_recommendation_score product preferences) |}
          :: unique_scored preferences rest (_id (doc product) :: seen_ids)
      else unique_scored preferences rest seen_ids
  end.

(** [x.get('recommendation_score', 0)] *)
Definition score_key (x : Document) : Q := get (recommendation_score x) 0%Q.

Definition score_lt (a b : Document) : bool :=
  Qltb (score_key a) (score_key b).

Definition _get_recommendations_by_preferences (db : DatabaseManager)
           (preferences : Preferences) (user_purchases : list Purchase)
           (limit : Z) : list Document :=
  let purchased_product_ids := map product_id user_purchases in
  let recommendations :=
    candidates db preferences purchased_product_ids limit in
  let unique_recommendations := unique_scored preferences recommendations [] in
  let unique_recommendations := sort_desc score_lt unique_recommendations in
  slice_to limit unique_recommendations.

Definition _get_popular_products (db : DatabaseManager) (limit : Z)
  : res (list Document) :=
  popular_product_ids <- aggregate_popular (purchases_collection db) limit ;;
  match popular_product_ids with
  | [] =>
      Returned (map serialize_document
                    (cursor_limit limit
                                  (find stock_gt0 (products_collection db))))
  | _ :: _ =>
      let product_ids :=
        map (fun item => ObjectId (group_id item)) popular_product_ids in
      Returned (map serialize_document
                    (find (id_in product_ids) (products_collection db)))
  end.

Definition get_recommendations_for_user (db : DatabaseManager)
           (uid : string) (limit : Z) : res (list Document) :=
  if negb (ObjectId_is_valid uid) then
    Raised (ValueError "ID do usuário inválido")
  else
    user_purchases <- get_user_purchases db uid ;;
    match user_purchases with
    | [] => _get_popular_products db limit
    | _ :: _ =>
        let preferences := _analyze_user_preferences db user_purchases in
        Returned (_get_recommendations_by_preferences db preferences
                                                      user_purchases limit)
    end.

(** ** MCPUserServer._handle_get_user_recommendations *)

(** The text the handler sends back, by its three templates. *)
Inductive Reply : Type :=
| NoRecommendation
| Recommendations (count : Z) (recommendations : list Document)
| ErrorText (msg : string).

(** [user_id] and [limit] are [arguments.get('user_id')] and
    [arguments.get('limit')]; a missing user id is not a valid ObjectId.
    Only [ValueError] is caught. *)
Definition _handle_get_user_recommendations (db : DatabaseManager)
           (user_id : option string) (limit : option Z) : res Reply :=
  let limit := get limit 10 in
  let outcome :=
    match user_id with
    | Some uid => get_recommendations_for_user db uid limit
    | None => Raised (ValueError "ID do usuário inválido")
    end in
  match outcome with
  | Returned [] => Returned NoRecommendation
  | Returned recommendations =>
      Returned (Recommendations (len recommendations) recommendations)
  | Raised (ValueError msg) => Returned (ErrorText msg)
  | Raised e => Raised e
  end.

(** * The services around the engine *)

(** ** PurchaseService.create_purchase and get_purchase_history

    The collections keep of every document the fields of the records
    above; the keys [user_email], [product_name] and [_id] of a purchase
    document are not modelled.  The time of the purchase
    ([datetime.utcnow()]) is the argument [now].  A manager whose
    connection failed has no collections ([None] each); it is the
    argument [None] of [create_purchase]. *)

(** The first document matching [query] is replaced by its update. *)
Fixpoint update_one {A : Type} (query : A -> bool) (update : A -> A)
         (coll : list A) : list A :=
  match coll with
  | [] => []
  | x :: rest =>
      if query x then update x :: rest
      else x :: update_one query update rest
  end.

Definition insert_one {A : Type} (document : A) (coll : list A) : list A :=
  coll ++ [document].

(** [{'$inc': {'stock_quantity': delta}}] *)
Definition inc_stock (delta : Z) (p : Product) : Product :=
  {| _id := _id p; category := category p; piece_type := piece_type p;
     color := color p; price := price p;
     stock_quantity := stock_quantity p + delta |}.

(** The purchase document handed back to the caller. *)
Record PurchaseDoc : Type := {
  stored : Purchase;
  user_name : string;
  product_price : Q;
  total_price : Q
}.

Definition create_purchase (manager : option DatabaseManager) (now : Z)
           (arg_user_id arg_product_id : option string)
           (arg_quantity : option Z)
  : res (PurchaseDoc * DatabaseManager) :=
  match manager with
  | None => Raised (ValueError "Conexão com banco de dados não disponível")
  | Some db =>
  let quantity := get arg_quantity 1 in
  match arg_user_id with
  | None => Raised (ValueError "ID do usuário inválido")
  | Some uid =>
  if negb (ObjectId_is_valid uid) then
    Raised (ValueError "ID do usuário inválido")
  else
  match arg_product_id with
  | None => Raised (ValueError "ID do produto inválido")
  | Some pid =>
  if negb (ObjectId_is_valid pid) then
    Raised (ValueError "ID do produto inválido")
  else if quantity <=? 0 then
    Raised (ValueError "Quantidade deve ser maior que zero")
  else
  match find_one (fun u => String.eqb (u_id u) (ObjectId uid))
                 (users_collection db) with
  | None => Raised (ValueError "Usuário não encontrado")
  | Some user =>
  match find_one (id_eq (ObjectId pid)) (products_collection db) with
  | None => Raised (ValueError "Produto não encontrado")
  | Some product =>
  if stock_quantity product <? quantity then
    Raised (ValueError "Estoque insuficiente")
  else
    let purchase_doc :=
      {| user_id := uid; product_id := pid; quantity := quantity;
         purchase_date := now |} in
    Returned
      ({| stored := purchase_doc;
          user_name := name user;
          product_price := price product;
          total_price := (price product * inject_Z quantity)%Q |},
       {| users_collection := users_collection db;
          products_collection :=
            update_one (id_eq (ObjectId pid)) (inc_stock (- quantity))
                       (products_collection db);
          purchases_collection :=
            insert_one purchase_doc (purchases_collection db) |})
  end end end end end.

(** [find().sort('purchase_date', -1).limit(limit)] *)
Definition get_purchase_history (db : DatabaseManager) (limit : Z)
  : list Purchase :=
  cursor_limit limit (sort_desc date_lt (purchases_collection db)).

(** ** Regular expressions ([re.match] as a yes/no question) *)

Module Re.

Inductive regex : Type :=
| Void
| Eps
| Class (p : ascii -> bool)
| Cat (r s : regex)
| Alt (r s : regex)
| Star (r : regex).

Fixpoint nullable (r : regex) : bool :=
  match r with
  | Void => false
  | Eps => true
  | Class _ => false
  | Cat r s => nullable r && nullable s
  | Alt r s => nullable r || nullable s
  | Star _ => true
  end.

(** Brzozowski derivative. *)
Fixpoint deriv (c : ascii) (r : regex) : regex :=
  match r with
  | Void => Void
  | Eps => Void
  | Class p => if p c then Eps else Void
  | Cat r s =>
      if nullable r then Alt (Cat (deriv c r) s) (deriv c s)
      else Cat (deriv c r) s
  | Alt r s => Alt (deriv c r) (deriv c s)
  | Star r => Cat (deriv c r) (Star r)
  end.

(** Does the whole string match? *)
Fixpoint fullmatch (r : regex) (s : string) : bool :=
  match s with
  | EmptyString => nullable r
  | String c s' => fullmatch (deriv c r) s'
  end.

(** [r+] and [r{2,}] *)
Definition plus (r : regex) : regex := Cat r (Star r).
Definition two_or_more (r : regex) : regex := Cat r (Cat r (Star r)).

(** A final [$] accepts the end of the string or one newline before
    it. *)
Definition dollar : regex :=
  Alt Eps (Class (fun c => Ascii.eqb c "010"%char)).

(** [bool(re.compile('^' r '$').match(s))] *)
Definition match_anchored (r : regex) (s : string) : bool :=
  fullmatch (Cat r dollar) s.

End Re.

(** ** UserValidator *)

Definition between (lo hi c : ascii) : bool :=
  ((nat_of_ascii lo <=? nat_of_ascii c)
   && (nat_of_ascii c <=? nat_of_ascii hi))%nat.

(** [[a-zA-Z]] *)
Definition is_alpha (c : ascii) : bool :=
  between "a" "z" c || between "A" "Z" c.

(** [[a-zA-Z0-9._%+-]] *)
Definition is_local_char (c : ascii) : bool :=
  is_alpha c || between "0" "9" c
  || Ascii.eqb c "." || Ascii.eqb c "_" || Ascii.eqb c "%"
  || Ascii.eqb c "+" || Ascii.eqb c "-".

(** [[a-zA-Z0-9.-]] *)
Definition is_domain_char (c : ascii) : bool :=
  is_alpha c || between "0" "9" c || Ascii.eqb c "." || Ascii.eqb c "-".

(** [^[a-zA-Z0-9._%+-]+@[a-zA-Z0-9.-]+\.[a-zA-Z]{2,}$] without its
    anchors. *)
Definition EMAIL_PATTERN : Re.regex :=
  Re.Cat (Re.plus (Re.Class is_local_char))
    (Re.Cat (Re.Class (fun c => Ascii.eqb c "@"))
       (Re.Cat (Re.plus (Re.Class is_domain_char))
          (Re.Cat (Re.Class (fun c => Ascii.eqb c "."))
             (Re.two_or_more (Re.Class is_alpha))))).

Definition is_valid_email (email : string) : bool :=
  Re.match_anchored EMAIL_PATTERN email.

(** [data.get('name')] and [data.get('email')] are the two arguments. *)
Definition validate_user_data (arg_name arg_email : option string)
  : list string :=
  let errors := [] in
  let errors :=
    if negb (truthy arg_name) then errors ++ ["Nome é obrigatório"%string]
    else errors in
  let errors :=
    if truthy arg_email && negb (is_valid_email (get arg_email EmptyString))
    then errors ++ ["Email inválido"%string]
    else errors in
  errors.

(** ** ProductValidator *)

Module ProductValidator.

Definition CATEGORIES : list string :=
  ["Casual"; "Formal"; "Esportivo"; "Praia"; "Inverno"; "Festa"]%string.
Definition PIECE_TYPES : list string :=
  ["Camiseta"; "Calça"; "Vestido"; "Saia"; "Blusa"; "Jaqueta"; "Shorts";
   "Casaco"; "Sapato"; "Acessório"]%string.
Definition COLORS : list string :=
  ["Preto"; "Branco"; "Azul"; "Vermelho"; "Verde"; "Amarelo"; "Rosa";
   "Roxo"; "Marrom"; "Cinza"; "Bege"; "Laranja"]%string.
Definition SIZES : list string :=
  ["PP"; "P"; "M"; "G"; "GG"; "XGG"; "34"; "36"; "38"; "40"; "42"; "44";
   "46"; "48"]%string.

(** The keys of [data] that the validator reads. *)
Record Data : Type := {
  name : option string;
  price : option Q;
  category : option string;
  piece_type : option string;
  color : option string;
  size : option string;
  stock_quantity : option Z
}.

(** [data.get(key) and data[key] not in allowed] *)
Definition not_allowed (field : option string) (allowed : list string)
  : bool :=
  truthy field && negb (mem (get field EmptyString) allowed).

(** [not data.get('price') or data.get('price') <= 0] *)
Definition bad_price (p : option Q) : bool :=
  match p with
  | None => true
  | Some x => Qeq_bool x 0 || Qle_bool x 0
  end.

Definition validate_product_data (data : Data) : list string :=
  let errors := [] in
  let errors :=
    if negb (truthy (name data))
    then errors ++ ["Nome do produto é obrigatório"%string] else errors in
  let errors :=
    if bad_price (price data)
    then errors ++ ["Preço deve ser maior que zero"%string] else errors in
  let errors :=
    if not_allowed (category data) CATEGORIES
    then errors ++ [("Categoria deve ser uma das: "
                     ++ String.concat ", " CATEGORIES)%string]
    else errors in
  let errors :=
    if not_allowed (piece_type data) PIECE_TYPES
    then errors ++ [("Tipo de peça deve ser um dos: "
                     ++ String.concat ", " PIECE_TYPES)%string]
    else errors in
  let errors :=
    if not_allowed (color data) COLORS
    then errors ++ [("Cor deve ser uma das: "
                     ++ String.concat ", " COLORS)%string]
    else errors in
  let errors :=
    if not_allowed (size data) SIZES
    then errors ++ [("Tamanho deve ser um dos: "
                     ++ String.concat ", " SIZES)%string]
    else errors in
  let errors :=
    match stock_quantity data with
    | Some q =>
        if q <? 0
        then errors ++ ["Quantidade em estoque não pode ser negativa"%string]
        else errors
    | None => errors
    end in
  errors.

End ProductValidator.

(** ** ExportService.generate_csv *)

Module Csv.

(** The values of a user document after [filter_user_fields]. *)
Inductive Value : Type :=
| VStr (s : string)
| VInt (n : Z)
| VNone.

(** [str(value)] *)
Definition str (v : Value) : string :=
  match v with
  | VStr s => s
  | VInt n => NilZero.string_of_int (Z.to_int n)
  | VNone => "None"
  end.

(** [c in value] *)
Fixpoint contains (c : ascii) (value : string) : bool :=
  match value with
  | EmptyString => false
  | String x rest => Ascii.eqb x c || contains c rest
  end.

(** [value.replace(q, q + q)] for the double-quote character [q]. *)
Definition dquote : ascii := "034"%char.

Fixpoint double_quotes (value : string) : string :=
  match value with
  | EmptyString => EmptyString
  | String x rest =>
      if Ascii.eqb x dquote
      then String dquote (String dquote (double_quotes rest))
      else String x (double_quotes rest)
  end.

Definition quote : string := String dquote EmptyString.

(** One cell of a row, from the text of its value. *)
Definition cell (value : string) : string :=
  if contains ";" value || contains dquote value
     || contains "010" value || contains "," value
  then (quote ++ double_quotes value ++ quote)%string
  else value.

Definition FIELD_MAPPING : dict string :=
  [("_id", "ID"); ("name", "Nome"); ("email", "Email");
   ("phone", "Telefone"); ("age", "Idade"); ("created_at", "Criado em");
   ("updated_at", "Atualizado em")]%string.

Definition row (selected_fields : list string) (user : dict Value)
  : string :=
  String.concat ";"
    (map (fun field => cell (str (get (dict_get user field)
                                      (VStr EmptyString))))
         selected_fields).

Definition generate_csv (users : list (dict Value))
           (selected_fields : list string) : string :=
  match users with
  | [] => EmptyString
  | _ :: _ =>
      let headers :=
        map (fun field => get (dict_get FIELD_MAPPING field) field)
            selected_fields in
      let csv_lines :=
        String.concat ";" headers :: map (row selected_fields) users in
      String.concat (String "010" EmptyString) csv_lines
  end.

End Csv.

(** ** Deleting users and products

    [delete_one(query)] removes the first matching document and reports
    how many it removed.  Neither function checks the connection; both
    are modelled on a connected manager. *)
Fixpoint delete_one {A : Type} (query : A -> bool) (coll : list A)
  : list A :=
  match coll with
  | [] => []
  | x :: rest => if query x then rest else x :: delete_one query rest
  end.

Definition deleted_count {A : Type} (query : A -> bool) (coll : list A)
  : Z :=
  len coll - len (delete_one query coll).

(** UserService.delete_user *)
Definition delete_user (db : DatabaseManager) (uid : string)
  : res (bool * DatabaseManager) :=
  if negb (ObjectId_is_valid uid) then Raised (ValueError "ID inválido")
  else
    let query u := String.eqb (u_id u) (ObjectId uid) in
    if deleted_count query (users_collection db) =? 0 then
      Raised (ValueError "Usuário não encontrado")
    else
      Returned (true,
                {| users_collection :=
                     delete_one query (users_collection db);
                   products_collection := products_collection db;
                   purchases_collection := purchases_collection db |}).

(** ProductService.delete_product *)
Definition delete_product (db : DatabaseManager) (pid : string)
  : res (bool * DatabaseManager) :=
  if negb (ObjectId_is_valid pid) then Raised (ValueError "ID inválido")
  else
    if deleted_count (id_eq (ObjectId pid)) (products_collection db) =? 0 then
      Raised (ValueError "Produto não encontrado")
    else
      Returned (true,
                {| users_collection := users_collection db;
                   products_collection :=
                     delete_one (id_eq (ObjectId pid))
                                (products_collection db);
                   purchases_collection := purchases_collection db |}).

(** * Specification-side definitions *)

(** [precedes a b l]: an occurrence of [a] comes before an occurrence of
    [b] in [l]. *)
Definition precedes {A : Type} (a b : A) (l : list A) : Prop :=
  exists l1 l2 l3, l = l1 ++ a :: l2 ++ b :: l3.


Definition doc_id (d : Document) : string := _id (doc d).

(** The purchase records of a user, and the list [get_user_purchases]
    hands to the engine for a well-formed identifier. *)
Definition history (db : DatabaseManager) (uid : string) : list Purchase :=
  find (fun p => String.eqb (user_id p) uid) (purchases_collection db).

Definition user_purchases (db : DatabaseManager) (uid : string)
  : list Purchase :=
  sort_desc date_lt (history db uid).

(** Every strategy queries with the same exclusion and stock filters. *)
Definition eligible (db : DatabaseManager) (purchased : list string)
           (d : Document) : Prop :=
  In (doc d) (products_collection db)
  /\ ~ In (doc_id d) (map ObjectId purchased)
  /\ 0 < stock_quantity (doc d)
  /\ recommendation_score d = None.


(** The product a purchase line refers to, if it still exists. *)
Definition resolve (db : DatabaseManager) (purchase : Purchase)
  : option Product :=
  find_one (id_eq (ObjectId (product_id purchase))) (products_collection db).

Definition resolves (db : DatabaseManager) (purchase : Purchase) : bool :=
  match resolve db purchase with
  | Some _ => true
  | None => false
  end.

(** Cumulative purchased quantity of the lines whose product resolves and
    has value [k] for the attribute [field] (['] when the key is absent). *)
Fixpoint tally (db : DatabaseManager) (field : Product -> option string)
         (k : string) (purchases : list Purchase) : Z :=
  match purchases with
  | [] => 0
  | purchase :: rest =>
      match resolve db purchase with
      | Some product =>
          if String.eqb (get (field product) EmptyString) k
          then quantity purchase + tally db field k rest
          else tally db field k rest
      | None => tally db field k rest
      end
  end.

(** Unit prices of the lines that resolve, one sample per line. *)
Fixpoint resolved_prices (db : DatabaseManager) (purchases : list Purchase)
  : list Q :=
  match purchases with
  | [] => []
  | purchase :: rest =>
      match resolve db purchase with
      | Some product => price product :: resolved_prices db rest
      | None => resolved_prices db rest
      end
  end.

(** Arithmetic mean of a list of samples, 0 for no sample. *)
Definition arithmetic_mean (samples : list Q) : Q :=
  match samples with
  | [] => 0%Q
  | _ :: _ =>
      (fold_right Qplus 0 samples
       / inject_Z (Z.of_nat (List.length samples)))%Q
  end.

(** The score as the specification composes it. *)
Definition price_score (product_price avg : Q) : Q :=
  if Qlt_le_dec 0 avg
  then Qmax 0 (1 - Qabs (product_price - avg) / avg)%Q
  else 0%Q.

Definition score_spec (product : Product) (profile : Preferences) : Q :=
  ((if eq_opt (category product) (preferred_category profile)
    then 3 else 0)
   + (if eq_opt (piece_type product) (preferred_piece_type profile)
      then 2 else 0)
   + (if eq_opt (color product) (preferred_color profile)
      then 3 # 2 else 0)
   + price_score (price product) (average_price profile))%Q.

(** ** The scenario of the specification

    User U bought product A (Casual, Camiseta, Azul, price 30) twice and
    product B (Casual, Calça, price 90) once; product C (Casual, Vestido,
    price 55) is a candidate. *)
Module Scenario.

Definition U : string := "66aa00000000000000000001".

Definition A : Product :=
  {| _id := "66bb0000000000000000000a"; category := Some "Casual"%string;
     piece_type := Some "Camiseta"%string; color := Some "Azul"%string;
     price := 30; stock_quantity := 10 |}.

Definition B : Product :=
  {| _id := "66bb0000000000000000000b"; category := Some "Casual"%string;
     piece_type := Some "Calça"%string; color := Some "Branco"%string;
     price := 90; stock_quantity := 10 |}.

Definition C : Product :=
  {| _id := "66bb0000000000000000000c"; category := Some "Casual"%string;
     piece_type := Some "Vestido"%string; color := Some "Branco"%string;
     price := 55; stock_quantity := 4 |}.

Definition lines : list Purchase :=
  [ {| user_id := U; product_id := _id A; quantity := 2;
       purchase_date := 1 |};
    {| user_id := U; product_id := _id B; quantity := 1;
       purchase_date := 2 |} ].

Definition db : DatabaseManager :=
  {| users_collection := [ {| u_id := U; name := "U" |} ];
     products_collection := [A; B; C];
     purchases_collection := lines |}.

(** The same store with two more Casual products on the shelf. *)
Definition D : Product :=
  {| _id := "66bb0000000000000000000d"; category := Some "Casual"%string;
     piece_type := Some "Saia"%string; color := Some "Verde"%string;
     price := 200; stock_quantity := 7 |}.

Definition E : Product :=
  {| _id := "66bb0000000000000000000e"; category := Some "Casual"%string;
     piece_type := Some "Camiseta"%string; color := Some "Azul"%string;
     price := 60; stock_quantity := 2 |}.

Definition wide : DatabaseManager :=
  {| users_collection := users_collection db;
     products_collection := [A; B; C; D; E];
     purchases_collection := lines |}.

End Scenario.

(** ** The wide store after U also bought product C, the purchase record
    spelling the id of C in upper case *)
Module Spelled.

Definition line : Purchase :=
  {| user_id := Scenario.U; product_id := "66BB0000000000000000000C";
     quantity := 1; purchase_date := 3 |}.

Definition db : DatabaseManager :=
  {| users_collection := users_collection Scenario.wide;
     products_collection := products_collection Scenario.wide;
     purchases_collection := Scenario.lines ++ [line] |}.

End Spelled.

(** Total purchased quantity of a product over all users. *)
Fixpoint summed_quantity (purchases : list Purchase) (pid : string) : Z :=
  match purchases with
  | [] => 0
  | purchase :: rest =>
      if String.eqb (product_id purchase) pid
      then quantity purchase + summed_quantity rest pid
      else summed_quantity rest pid
  end.

(** ** A store with a sold-out best seller

    Product X (in stock) was bought once and product Y (sold out) five
    times, both by the registered user W; the identifier V is well formed
    but belongs to no user and to no purchase. *)
Module Outlet.

Definition W : string := "77aa00000000000000000001".
Definition V : string := "77aa00000000000000000002".

Definition X : Product :=
  {| _id := "77bb0000000000000000000a"; category := Some "Formal"%string;
     piece_type := Some "Blusa"%string; color := Some "Preto"%string;
     price := 80; stock_quantity := 3 |}.

Definition Y : Product :=
  {| _id := "77bb0000000000000000000b"; category := Some "Festa"%string;
     piece_type := Some "Vestido"%string; color := Some "Rosa"%string;
     price := 150; stock_quantity := 0 |}.

Definition db : DatabaseManager :=
  {| users_collection := [ {| u_id := W; name := "W" |} ];
     products_collection := [X; Y];
     purchases_collection :=
       [ {| user_id := W; product_id := _id X; quantity := 1;
            purchase_date := 1 |};
         {| user_id := W; product_id := _id Y; quantity := 5;
            purchase_date := 2 |} ] |}.

End Outlet.

(** ** The scenario after products A and B were deleted *)
Module Cleared.

Definition db : DatabaseManager :=
  {| users_collection := users_collection Scenario.db;
     products_collection := [Scenario.C];
     purchases_collection := Scenario.lines |}.

End Cleared.

(** The units on the shelf, over all products. *)
Definition total_stock (products : list Product) : Z :=
  fold_right (fun p acc => stock_quantity p + acc) 0 products.

(** The strings a regular expression denotes. *)
Inductive lang : Re.regex -> string -> Prop :=
| lang_eps : lang Re.Eps EmptyString
| lang_class (p : ascii -> bool) (c : ascii) :
    p c = true -> lang (Re.Class p) (String c EmptyString)
| lang_cat (r s : Re.regex) (u v : string) :
    lang r u -> lang s v -> lang (Re.Cat r s) (append u v)
| lang_alt_l (r s : Re.regex) (u : string) :
    lang r u -> lang (Re.Alt r s) u
| lang_alt_r (r s : Re.regex) (u : string) :
    lang s u -> lang (Re.Alt r s) u
| lang_star_nil (r : Re.regex) : lang (Re.Star r) EmptyString
| lang_star_cons (r : Re.regex) (u v : string) :
    lang r u -> lang (Re.Star r) v -> lang (Re.Star r) (append u v).

(** Every character of [s] satisfies [p]. *)
Fixpoint all_chars (p : ascii -> bool) (s : string) : bool :=
  match s with
  | EmptyString => true
  | String c s' => p c && all_chars p s'
  end.

(** A well-formed e-mail address, part by part. *)
Definition email_shape (local domain tld tail : string) : Prop :=
  local <> EmptyString /\ all_chars is_local_char local = true
  /\ domain <> EmptyString /\ all_chars is_domain_char domain = true
  /\ (2 <= String.length tld)%nat /\ all_chars is_alpha tld = true
  /\ (tail = EmptyString \/ tail = String "010" EmptyString).

(** A value the product validator lets through for a key with a list of
    allowed values: absent, empty, or in the list. *)
Definition allowed (field : option string) (values : list string) : Prop :=
  field = None \/ field = Some EmptyString
  \/ exists v, field = Some v /\ In v values.

(** * Properties *)

(** ** Lists, slices and cursors *)

Lemma firstn_incl {A : Type} (n : nat) (l : list A) : incl (firstn n l) l.
Proof.
  intros x Hx. rewrite <- (firstn_skipn n l). apply in_or_app. now left.
Qed.

Lemma slice_to_incl {A : Type} (n : Z) (l : list A) : incl (slice_to n l) l.
Proof. unfold slice_to. destruct (0 <=? n); apply firstn_incl. Qed.


Lemma slice_to_length {A : Type} (n : Z) (l : list A) :
  0 <= n -> len (slice_to n l) <= n.
Proof.
  intros Hn. unfold slice_to, len.
  apply Z.leb_le in Hn. rewrite Hn. rewrite length_firstn. lia.
Qed.


Lemma slice_to_nonpos {A : Type} (n : Z) (l : list A) :
  n <= 0 -> (n < 0 -> len l <= - n) -> slice_to n l = [].
Proof.
  unfold slice_to, len. intros Hn Hl.
  destruct (0 <=? n) eqn:E.
  - apply Z.leb_le in E. replace n with 0 by lia. reflexivity.
  - apply Z.leb_gt in E. specialize (Hl E).
    replace (List.length l - Z.to_nat (- n))%nat with 0%nat by lia.
    reflexivity.
Qed.

Lemma cursor_limit_incl {A : Type} (n : Z) (l : list A) :
  incl (cursor_limit n l) l.
Proof.
  unfold cursor_limit. destruct (n =? 0).
  - apply incl_refl.
  - apply firstn_incl.
Qed.

Lemma cursor_limit_length {A : Type} (n : Z) (l : list A) :
  n <> 0 -> len (cursor_limit n l) <= Z.abs n.
Proof.
  intros Hn. unfold cursor_limit, len.
  apply Z.eqb_neq in Hn. rewrite Hn. rewrite length_firstn. lia.
Qed.

Lemma precedes_prefix {A : Type} (a b : A) (l rest : list A) :
  precedes a b l -> precedes a b (l ++ rest).
Proof.
  intros (l1 & l2 & l3 & ->). exists l1, l2, (l3 ++ rest).
  now rewrite <- !app_assoc, <- !app_comm_cons, <- app_assoc.
Qed.





Lemma StronglySorted_prefix {A : Type} (R : A -> A -> Prop) (l1 l2 : list A) :
  StronglySorted R (l1 ++ l2) -> StronglySorted R l1.
Proof.
  induction l1 as [|x l1 IH]; simpl; intros H.
  - constructor.
  - inversion H as [|? ? Hs Hf]; subst. constructor.
    + now apply IH.
    + apply Forall_app in Hf. tauto.
Qed.

Lemma StronglySorted_impl {A : Type} (R R' : A -> A -> Prop) (l : list A) :
  (forall a b, R a b -> R' a b) ->
  StronglySorted R l -> StronglySorted R' l.
Proof.
  intros HR H. induction H as [|x l Hs IH Hf]; constructor.
  - exact IH.
  - eapply Forall_impl; [|exact Hf]. intros b. apply HR.
Qed.

Lemma StronglySorted_impl_In {A : Type} (R R' : A -> A -> Prop)
      (l : list A) :
  (forall a b, In a l -> In b l -> R a b -> R' a b) ->
  StronglySorted R l -> StronglySorted R' l.
Proof.
  intros HR H. induction H as [|x l Hs IH Hf]; constructor.
  - apply IH. intros a b Ha Hb. apply HR; now right.
  - rewrite Forall_forall in *. intros b Hb.
    apply HR; [now left | now right | now apply Hf].
Qed.

Lemma StronglySorted_cross {A : Type} (R : A -> A -> Prop) (l1 l2 : list A) :
  StronglySorted R (l1 ++ l2) ->
  forall a b, In a l1 -> In b l2 -> R a b.
Proof.
  induction l1 as [|x l1 IH]; simpl; intros H a b Ha Hb.
  - easy.
  - inversion H as [|? ? Hs Hf]; subst. destruct Ha as [<-|Ha].
    + rewrite Forall_forall in Hf. apply Hf, in_or_app. now right.
    + now apply IH.
Qed.

Lemma StronglySorted_map {A B : Type} (R : A -> A -> Prop)
      (R' : B -> B -> Prop) (f : A -> B) (l : list A) :
  (forall a b, R a b -> R' (f a) (f b)) ->
  StronglySorted R l -> StronglySorted R' (map f l).
Proof.
  intros HR H. induction H as [|x l Hs IH Hf]; simpl; constructor.
  - exact IH.
  - apply Forall_map. eapply Forall_impl; [|exact Hf]. intros b. apply HR.
Qed.

Lemma NoDup_map_filter {A B : Type} (f : A -> B) (P : A -> bool)
      (l : list A) :
  NoDup (map f l) -> NoDup (map f (filter P l)).
Proof.
  induction l as [|x l IH]; simpl; intros H.
  - constructor.
  - inversion H as [|? ? Hx Hn]; subst. destruct (P x); simpl.
    + constructor; [|now apply IH].
      intros Hin. apply Hx. apply in_map_iff in Hin.
      destruct Hin as (y & E & Hy). apply filter_In in Hy.
      rewrite <- E. apply in_map. tauto.
    + now apply IH.
Qed.

(** ** The stable descending sort *)

Section SortFacts.
Context {A : Type} (lt : A -> A -> bool).

Lemma insert_desc_perm (x : A) (l : list A) :
  Permutation (insert_desc lt x l) (x :: l).
Proof.
  induction l as [|y l IH]; simpl.
  - apply Permutation_refl.
  - destruct (lt x y).
    + eapply perm_trans; [apply perm_skip, IH | apply perm_swap].
    + apply Permutation_refl.
Qed.

Lemma sort_desc_perm (l : list A) : Permutation (sort_desc lt l) l.
Proof.
  induction l as [|x l IH]; simpl.
  - constructor.
  - eapply perm_trans; [apply insert_desc_perm | now apply perm_skip].
Qed.

Lemma sort_desc_length (l : list A) :
  List.length (sort_desc lt l) = List.length l.
Proof. apply Permutation_length, sort_desc_perm. Qed.

Lemma sort_desc_In (x : A) (l : list A) : In x (sort_desc lt l) <-> In x l.
Proof.
  split; apply Permutation_in;
    [ | apply Permutation_sym ]; apply sort_desc_perm.
Qed.



Hypothesis lt_asym : forall x y, lt x y = true -> lt y x = false.
Hypothesis ge_trans :
  forall x y z, lt x y = false -> lt y z = false -> lt x z = false.

Lemma insert_desc_sorted (x : A) (l : list A) :
  StronglySorted (fun a b => lt a b = false) l ->
  StronglySorted (fun a b => lt a b = false) (insert_desc lt x l).
Proof.
  induction l as [|y l IH]; simpl; intros Hs.
  - repeat constructor.
  - inversion Hs as [|? ? Hs' Hy]; subst.
    destruct (lt x y) eqn:E.
    + constructor; [now apply IH|].
      apply (Permutation_Forall (Permutation_sym (insert_desc_perm x l))).
      constructor; [now apply lt_asym | exact Hy].
    + constructor; [exact Hs|].
      constructor; [exact E|].
      eapply Forall_impl; [|exact Hy].
      intros z Hz. now apply (ge_trans x y z).
Qed.

Lemma sort_desc_sorted (l : list A) :
  StronglySorted (fun a b => lt a b = false) (sort_desc lt l).
Proof.
  induction l as [|x l IH]; simpl.
  - constructor.
  - now apply insert_desc_sorted.
Qed.

End SortFacts.

(** ** Rational comparisons *)

Lemma Qltb_lt (x y : Q) : Qltb x y = true <-> (x < y)%Q.
Proof.
  unfold Qltb. rewrite negb_true_iff, <- not_true_iff_false, Qle_bool_iff.
  split; [apply Qnot_le_lt | apply Qlt_not_le].
Qed.

Lemma Qltb_ge (x y : Q) : Qltb x y = false <-> (y <= x)%Q.
Proof. unfold Qltb. now rewrite negb_false_iff, Qle_bool_iff. Qed.

Lemma Qadd_nonneg (a b : Q) : (0 <= a -> 0 <= b -> 0 <= a + b)%Q.
Proof.
  intros Ha Hb. setoid_replace 0%Q with (0 + 0)%Q at 1 by ring.
  now apply Qplus_le_compat.
Qed.

Lemma max0_Qmax (x : Q) : (max0 x == Qmax 0 x)%Q.
Proof.
  unfold max0. destruct (Qltb 0 x) eqn:E.
  - apply Qltb_lt in E. symmetry. apply Q.max_r. now apply Qlt_le_weak.
  - apply Qltb_ge in E. symmetry. now apply Q.max_l.
Qed.

Lemma max0_nonneg (x : Q) : (0 <= max0 x)%Q.
Proof.
  unfold max0. destruct (Qltb 0 x) eqn:E.
  - apply Qltb_lt in E. now apply Qlt_le_weak.
  - apply Qle_refl.
Qed.

(** ** The score *)

Lemma price_score_code (product_price avg : Q) :
  ((if Qltb 0 avg
    then max0 (1 - Qabs (product_price - avg) / avg) else 0)
   == price_score product_price avg)%Q.
Proof.
  unfold price_score. destruct (Qlt_le_dec 0 avg) as [H|H].
  - apply Qltb_lt in H. rewrite H. apply max0_Qmax.
  - apply Qltb_ge in H. rewrite H. reflexivity.
Qed.

Lemma score_refines_spec (product : Document) (preferences : Preferences) :
  (_calculate_recommendation_score product preferences
   == score_spec (doc product) preferences)%Q.
Proof.
  unfold _calculate_recommendation_score, score_spec.
  rewrite <- price_score_code.
  destruct (eq_opt (category (doc product)) (preferred_category preferences)),
    (eq_opt (piece_type (doc product)) (preferred_piece_type preferences)),
    (eq_opt (color (doc product)) (preferred_color preferences)),
    (Qltb 0 (average_price preferences)); ring.
Qed.

Lemma score_nonneg (product : Document) (preferences : Preferences) :
  (0 <= _calculate_recommendation_score product preferences)%Q.
Proof.
  unfold _calculate_recommendation_score.
  set (ps := max0 _). assert (Hps : (0 <= ps)%Q) by apply max0_nonneg.
  clearbody ps.
  destruct (eq_opt (category (doc product)) (preferred_category preferences)),
    (eq_opt (piece_type (doc product)) (preferred_piece_type preferences)),
    (eq_opt (color (doc product)) (preferred_color preferences)),
    (Qltb 0 (average_price preferences));
    repeat apply Qadd_nonneg; try exact Hps; try apply Qle_refl;
    try (now unfold Qle; simpl).
Qed.

(** C5. The recommendation score is 3.0 for a category match plus 2.0 for
    a piece-type match plus 1.5 for a colour match plus the price score,
    which is max(0, 1 - |price - average| / average) when the average is
    positive and 0 otherwise.  In the scenario (average price 60), product
    C with the preferred category only and price 55 scores 3 + 11/12,
    about 3.917. *)
Theorem C5_score_formula :
  (forall product preferences,
      (_calculate_recommendation_score product preferences
       == score_spec (doc product) preferences)%Q)
  /\ (let profile := _analyze_user_preferences Scenario.db Scenario.lines in
      let score :=
        _calculate_recommendation_score (serialize_document Scenario.C)
                                        profile in
      preferred_category profile = Some "Casual"%string
      /\ (average_price profile == 60)%Q
      /\ (score == 3 + (1 - (5 # 60)))%Q
      /\ (3916 # 1000 < score)%Q /\ (score < 3918 # 1000)%Q).
Proof.
  split.
  - exact score_refines_spec.
  - cbv zeta. repeat split; vm_compute; reflexivity.
Qed.

(** ** The preference analyzer *)

Lemma dict_get_set {V : Type} (d : dict V) (k' k : string) (v : V) :
  dict_get (dict_set d k' v) k
  = if String.eqb k' k then Some v else dict_get d k.
Proof.
  induction d as [|[k0 v0] d IH]; simpl.
  - reflexivity.
  - destruct (String.eqb k0 k') eqn:E0; simpl.
    + apply String.eqb_eq in E0. subst k0.
      now destruct (String.eqb k' k).
    + rewrite IH. destruct (String.eqb k0 k) eqn:E1; [|reflexivity].
      apply String.eqb_eq in E1. subst k0.
      rewrite String.eqb_sym in E0. now rewrite E0.
Qed.

Lemma count_get (d : dict Z) (k' k : string) (q : Z) :
  get (dict_get (count d k' q) k) 0
  = if String.eqb k' k then get (dict_get d k) 0 + q
    else get (dict_get d k) 0.
Proof.
  unfold count. rewrite dict_get_set.
  destruct (String.eqb k' k) eqn:E; [|reflexivity].
  apply String.eqb_eq in E. now subst.
Qed.

Lemma analyze_fold (db : DatabaseManager) (purchases : list Purchase) :
  forall acc,
    let out := fold_left (analyze_step db) purchases acc in
    (forall k, get (dict_get (acc_categories out) k) 0
               = get (dict_get (acc_categories acc) k) 0
                 + tally db category k purchases)
    /\ (forall k, get (dict_get (acc_piece_types out) k) 0
                  = get (dict_get (acc_piece_types acc) k) 0
                    + tally db piece_type k purchases)
    /\ (forall k, get (dict_get (acc_colors out) k) 0
                  = get (dict_get (acc_colors acc) k) 0
                    + tally db color k purchases)
    /\ acc_price_range out
       = acc_price_range acc ++ resolved_prices db purchases.
Proof.
  induction purchases as [|purchase rest IH]; intros acc; simpl.
  - repeat split; intros; try lia. now rewrite app_nil_r.
  - destruct (IH (analyze_step db acc purchase)) as (Hc & Hp & Hk & Hr).
    unfold analyze_step in Hc, Hp, Hk, Hr |- *. unfold resolve.
    destruct (find_one (id_eq (ObjectId (product_id purchase)))
                      (products_collection db))
      as [product|]; simpl in *.
    + repeat split.
      * intros k. rewrite Hc, count_get.
        destruct (String.eqb _ k); lia.
      * intros k. rewrite Hp, count_get.
        destruct (String.eqb _ k); lia.
      * intros k. rewrite Hk, count_get.
        destruct (String.eqb _ k); lia.
      * now rewrite Hr, <- app_assoc.
    + repeat split; assumption.
Qed.

Lemma analyze_skips_unresolved (db : DatabaseManager)
      (purchases : list Purchase) :
  forall acc,
    fold_left (analyze_step db) (filter (resolves db) purchases) acc
    = fold_left (analyze_step db) purchases acc.
Proof.
  induction purchases as [|purchase rest IH]; intros acc; simpl.
  - reflexivity.
  - unfold resolves at 1. unfold resolve.
    destruct (find_one (id_eq (ObjectId (product_id purchase)))
                      (products_collection db))
      as [product|] eqn:E; simpl.
    + apply IH.
    + rewrite IH. unfold analyze_step at 3. now rewrite E.
Qed.

Lemma sum_fold_right (l : list Q) :
  forall a, (fold_left Qplus l a == a + fold_right Qplus 0 l)%Q.
Proof.
  induction l as [|x l IH]; intros a; simpl.
  - ring.
  - rewrite IH. ring.
Qed.

Lemma mean_arithmetic (l : list Q) : (mean l == arithmetic_mean l)%Q.
Proof.
  destruct l as [|x l]; [reflexivity|].
  unfold mean, arithmetic_mean, Py.sum, len.
  rewrite sum_fold_right. now rewrite Qplus_0_l.
Qed.

(** C7. The profile adds the purchased quantity of every line whose
    product resolves to the category, piece-type and colour tallies; a
    line whose product does not resolve contributes nothing; the average
    price is the unweighted mean of the unit prices of the resolved lines,
    or 0 when none resolves.  In the scenario (30 at quantity 2 and 90 at
    quantity 1) the category tally is 3 and the average price is 60. *)
Theorem C7_preference_profile :
  (forall db purchases,
      let profile := _analyze_user_preferences db purchases in
      (forall k, get (dict_get (categories profile) k) 0
                 = tally db category k purchases)
      /\ (forall k, get (dict_get (piece_types profile) k) 0
                    = tally db piece_type k purchases)
      /\ (forall k, get (dict_get (colors profile) k) 0
                    = tally db color k purchases)
      /\ _analyze_user_preferences db (filter (resolves db) purchases)
         = profile
      /\ (average_price profile
          == arithmetic_mean (resolved_prices db purchases))%Q
      /\ (resolved_prices db purchases = [] -> average_price profile = 0%Q))
  /\ (let profile := _analyze_user_preferences Scenario.db Scenario.lines in
      categories profile = [("Casual"%string, 3)]
      /\ piece_types profile = [("Camiseta"%string, 2); ("Calça"%string, 1)]
      /\ colors profile = [("Azul"%string, 2); ("Branco"%string, 1)]
      /\ (average_price profile == 60)%Q).
Proof.
  split.
  - intros db purchases profile. subst profile.
    unfold _analyze_user_preferences, analyze_loop; simpl.
    destruct (analyze_fold db purchases
                {| acc_categories := []; acc_piece_types := [];
                   acc_colors := []; acc_price_range := [] |})
      as (Hc & Hp & Hk & Hr); simpl in *.
    repeat split.
    + intros k. now rewrite Hc.
    + intros k. now rewrite Hp.
    + intros k. now rewrite Hk.
    + now rewrite analyze_skips_unresolved.
    + rewrite Hr. apply mean_arithmetic.
    + intros E. now rewrite Hr, E.
  - cbv zeta. repeat split; vm_compute; reflexivity.
Qed.

(** ** The has-history path *)

Lemma get_user_purchases_valid (db : DatabaseManager) (uid : string) :
  ObjectId_is_valid uid = true ->
  get_user_purchases db uid = Returned (user_purchases db uid).
Proof. intros H. unfold get_user_purchases. now rewrite H. Qed.

Lemma user_purchases_nil (db : DatabaseManager) (uid : string) :
  user_purchases db uid = [] <-> history db uid = [].
Proof.
  unfold user_purchases. split; intros H.
  - apply length_zero_iff_nil. rewrite <- (sort_desc_length date_lt).
    now rewrite H.
  - now rewrite H.
Qed.

Lemma has_history_run (db : DatabaseManager) (uid : string) (limit : Z) :
  ObjectId_is_valid uid = true ->
  history db uid <> [] ->
  get_recommendations_for_user db uid limit
  = Returned (_get_recommendations_by_preferences
                db (_analyze_user_preferences db (user_purchases db uid))
                (user_purchases db uid) limit).
Proof.
  intros Hv Hh. unfold get_recommendations_for_user.
  rewrite Hv, get_user_purchases_valid by exact Hv. simpl.
  destruct (user_purchases db uid) eqn:E; [|reflexivity].
  now apply user_purchases_nil in E.
Qed.

Lemma no_history_run (db : DatabaseManager) (uid : string) (limit : Z) :
  ObjectId_is_valid uid = true ->
  history db uid = [] ->
  get_recommendations_for_user db uid limit = _get_popular_products db limit.
Proof.
  intros Hv Hh. unfold get_recommendations_for_user.
  rewrite Hv, get_user_purchases_valid by exact Hv. simpl.
  apply user_purchases_nil in Hh. now rewrite Hh.
Qed.

Lemma mem_In (x : string) (l : list string) : mem x l = true <-> In x l.
Proof.
  unfold mem. rewrite existsb_exists. split.
  - intros (y & Hy & E). apply String.eqb_eq in E. now subst.
  - intros H. exists x. split; [exact H | apply String.eqb_refl].
Qed.

Lemma mem_false (x : string) (l : list string) : mem x l = false <-> ~ In x l.
Proof. rewrite <- mem_In. now destruct (mem x l). Qed.

Lemma query_eligible (db : DatabaseManager) (purchased : list string)
      (q : Product -> bool) (n : Z) (d : Document) :
  In d (map serialize_document
            (cursor_limit n
               (find (fun p => q p && id_nin (map ObjectId purchased) p
                                && stock_gt0 p)
                     (products_collection db)))) ->
  eligible db purchased d.
Proof.
  intros H. apply in_map_iff in H. destruct H as (p & <- & H).
  apply cursor_limit_incl in H. apply filter_In in H.
  destruct H as (Hin & Hq).
  apply andb_true_iff in Hq. destruct Hq as (Hq & Hs).
  apply andb_true_iff in Hq. destruct Hq as (_ & Hn).
  unfold id_nin in Hn. apply negb_true_iff, mem_false in Hn.
  unfold stock_gt0 in Hs. apply Z.ltb_lt in Hs.
  now repeat split.
Qed.

Lemma candidates_eligible (db : DatabaseManager) (preferences : Preferences)
      (purchased : list string) (limit : Z) (d : Document) :
  In d (candidates db preferences purchased limit) ->
  eligible db purchased d.
Proof.
  unfold candidates. simpl. intros H.
  apply in_app_or in H. destruct H as [H|H].
  - apply in_app_or in H. destruct H as [H|H].
    + unfold category_strategy in H.
      destruct (truthy (preferred_category preferences)); [|easy].
      eapply query_eligible; exact H.
    + unfold piece_type_strategy in H.
      destruct (truthy (preferred_piece_type preferences) && _); [|easy].
      eapply query_eligible; exact H.
  - unfold price_strategy in H.
    destruct (Qltb 0 (average_price preferences) && _); [|easy].
    eapply query_eligible; exact H.
Qed.

(** The deduplication loop. *)
Lemma unique_scored_In (preferences : Preferences) (l : list Document) :
  forall seen d,
    In d (unique_scored preferences l seen) ->
    ~ In (doc_id d) seen
    /\ exists c,
        List.find (fun c => String.eqb (doc_id c) (doc_id d)) l = Some c
        /\ doc d = doc c
        /\ recommendation_score d
           = Some (_calculate_recommendation_score c preferences).
Proof.
  induction l as [|product rest IH]; intros seen d H; simpl in H.
  - easy.
  - fold (doc_id product) in H. simpl.
    destruct (mem (doc_id product) seen) eqn:M; simpl in H.
    + destruct (IH _ _ H) as (Hs & c & Hf & Hc).
      split; [exact Hs|].
      destruct (String.eqb (doc_id product) (doc_id d)) eqn:E.
      * apply String.eqb_eq in E. apply mem_In in M. now rewrite E in M.
      * now exists c.
    + destruct H as [<-|H].
      * unfold doc_id at 1 3. simpl. fold (doc_id product).
        split; [now apply mem_false|].
        rewrite String.eqb_refl. now exists product.
      * destruct (IH _ _ H) as (Hs & c & Hf & Hc).
        split; [intros Hin; apply Hs; now right|].
        destruct (String.eqb (doc_id product) (doc_id d)) eqn:E.
        -- apply String.eqb_eq in E. exfalso. apply Hs. now left.
        -- now exists c.
Qed.










Lemma by_preferences_eligible (db : DatabaseManager)
      (preferences : Preferences) (purchases : list Purchase) (limit : Z)
      (d : Document) :
  In d (_get_recommendations_by_preferences db preferences purchases limit) ->
  In (doc d) (products_collection db)
  /\ ~ In (doc_id d) (map ObjectId (map product_id purchases))
  /\ 0 < stock_quantity (doc d).
Proof.
  unfold _get_recommendations_by_preferences. intros H.
  apply slice_to_incl, sort_desc_In, unique_scored_In in H.
  destruct H as (_ & c & Hf & Hd & _).
  apply find_some in Hf. destruct Hf as (Hc & _).
  apply candidates_eligible in Hc. destruct Hc as (H1 & H2 & H3 & _).
  unfold doc_id in *. rewrite Hd. now repeat split.
Qed.

Lemma history_In (db : DatabaseManager) (uid : string) (p : Purchase) :
  In p (user_purchases db uid)
  <-> In p (purchases_collection db) /\ user_id p = uid.
Proof.
  unfold user_purchases, history, find.
  rewrite sort_desc_In, filter_In. now rewrite String.eqb_eq.
Qed.





(** ** The popularity fallback *)

Lemma dict_set_keys {V : Type} (d : dict V) (k : string) (v : V) :
  map fst (dict_set d k v)
  = if mem k (map fst d) then map fst d else map fst d ++ [k].
Proof.
  induction d as [|[k0 v0] d IH]; simpl.
  - reflexivity.
  - unfold mem in *. simpl. rewrite (String.eqb_sym k k0).
    destruct (String.eqb k0 k); simpl; [reflexivity|].
    rewrite IH. now destruct (existsb (String.eqb k) (map fst d)).
Qed.

Lemma dict_set_NoDup {V : Type} (d : dict V) (k : string) (v : V) :
  NoDup (map fst d) -> NoDup (map fst (dict_set d k v)).
Proof.
  intros H. rewrite dict_set_keys. destruct (mem k (map fst d)) eqn:M.
  - exact H.
  - apply mem_false in M. apply NoDup_app; [exact H | repeat constructor; easy | ].
    intros x Hx [<-|[]]. contradiction.
Qed.

Lemma dict_get_In {V : Type} (d : dict V) (k : string) (v : V) :
  NoDup (map fst d) -> In (k, v) d -> dict_get d k = Some v.
Proof.
  induction d as [|[k0 v0] d IH]; simpl; intros Hn Hin.
  - easy.
  - inversion Hn as [|? ? Hk Hn']; subst.
    destruct Hin as [E|Hin].
    + injection E as -> ->. now rewrite String.eqb_refl.
    + destruct (String.eqb k0 k) eqn:E.
      * apply String.eqb_eq in E. subst k0. exfalso. apply Hk.
        now apply (in_map fst) in Hin.
      * now apply IH.
Qed.

Lemma group_fold (purchases : list Purchase) :
  forall acc,
    NoDup (map fst acc) ->
    let groups := fold_left group_step purchases acc in
    NoDup (map fst groups)
    /\ (forall k, In k (map fst groups)
                  <-> In k (map fst acc) \/ In k (map product_id purchases))
    /\ (forall k, fst (get (dict_get groups k) (0, 0))
                  = fst (get (dict_get acc k) (0, 0))
                    + summed_quantity purchases k).
Proof.
  induction purchases as [|purchase rest IH]; intros acc Hn; simpl.
  - repeat split; try tauto; lia.
  - assert (Hn' : NoDup (map fst (group_step acc purchase))).
    { unfold group_step.
      destruct (get (dict_get acc (product_id purchase)) (0, 0)).
      now apply dict_set_NoDup. }
    destruct (IH _ Hn') as (H1 & H2 & H3). repeat split.
    + exact H1.
    + intros H. apply H2 in H. destruct H as [H|H]; [|tauto].
      unfold group_step in H.
      destruct (get (dict_get acc (product_id purchase)) (0, 0)).
      rewrite dict_set_keys in H.
      destruct (mem (product_id purchase) (map fst acc)); [tauto|].
      apply in_app_or in H. simpl in H. tauto.
    + intros H. apply H2. unfold group_step.
      destruct (get (dict_get acc (product_id purchase)) (0, 0)).
      rewrite dict_set_keys.
      destruct (mem (product_id purchase) (map fst acc)) eqn:M.
      * apply mem_In in M. destruct H as [H|[<-|H]]; tauto.
      * rewrite in_app_iff. simpl. tauto.
    + intros k. rewrite H3. unfold group_step.
      destruct (get (dict_get acc (product_id purchase)) (0, 0))
        as [q n] eqn:G.
      rewrite dict_get_set.
      destruct (String.eqb (product_id purchase) k) eqn:E; simpl.
      * apply String.eqb_eq in E. subst k. rewrite G. simpl. lia.
      * lia.
Qed.

Lemma group_by_product_spec (purchases : list Purchase) :
  NoDup (map group_id (group_by_product purchases))
  /\ (forall k, In k (map group_id (group_by_product purchases))
                <-> In k (map product_id purchases))
  /\ (forall g, In g (group_by_product purchases) ->
                total_quantity g = summed_quantity purchases (group_id g)).
Proof.
  unfold group_by_product.
  destruct (group_fold purchases [] (NoDup_nil _)) as (H1 & H2 & H3).
  simpl in *. rewrite map_map. simpl.
  repeat split.
  - exact H1.
  - intros H. apply H2 in H. tauto.
  - intros H. apply H2. tauto.
  - intros g Hg. apply in_map_iff in Hg. destruct Hg as ([k [q n]] & <- & Hin).
    simpl. specialize (H3 k).
    rewrite (dict_get_In _ _ _ H1 Hin) in H3. simpl in H3. lia.
Qed.

Lemma quantity_lt_asym (x y : PopularItem) :
  quantity_lt x y = true -> quantity_lt y x = false.
Proof. unfold quantity_lt. rewrite Z.ltb_lt, Z.ltb_ge. lia. Qed.

Lemma quantity_ge_trans (x y z : PopularItem) :
  quantity_lt x y = false -> quantity_lt y z = false ->
  quantity_lt x z = false.
Proof. unfold quantity_lt. rewrite !Z.ltb_ge. lia. Qed.

(** What the aggregation pipeline returns for a positive limit. *)
Lemma aggregate_popular_spec (purchases : list Purchase) (n : Z) :
  0 < n ->
  exists top,
    aggregate_popular purchases n = Returned top
    /\ NoDup (map group_id top)
    /\ len top <= n
    /\ (purchases <> [] -> top <> [])
    /\ incl (map group_id top) (map product_id purchases)
    /\ (forall g, In g top ->
                  total_quantity g = summed_quantity purchases (group_id g))
    /\ StronglySorted (fun a b => total_quantity b <= total_quantity a) top
    /\ (forall pid,
          In pid (map product_id purchases) ->
          ~ In pid (map group_id top) ->
          len top = n
          /\ forall g, In g top ->
                       summed_quantity purchases pid <= total_quantity g).
Proof.
  intros Hn.
  destruct (group_by_product_spec purchases) as (Hnd & Hkeys & Hsum).
  set (sorted := sort_desc quantity_lt (group_by_product purchases)).
  assert (Hperm : Permutation sorted (group_by_product purchases))
    by apply sort_desc_perm.
  assert (Hsorted : StronglySorted (fun a b => total_quantity b <= total_quantity a)
                                   sorted).
  { eapply StronglySorted_impl;
      [ | apply (sort_desc_sorted quantity_lt quantity_lt_asym
                                  quantity_ge_trans) ].
    intros a b. unfold quantity_lt. now rewrite Z.ltb_ge. }
  pose proof (firstn_skipn (Z.to_nat n) sorted) as Hsplit.
  assert (Hout : forall pid,
             In pid (map product_id purchases) ->
             ~ In pid (map group_id (firstn (Z.to_nat n) sorted)) ->
             exists g, group_id g = pid
                       /\ In g (group_by_product purchases)
                       /\ In g (skipn (Z.to_nat n) sorted)).
  { intros pid Hpid Hnot. apply Hkeys, in_map_iff in Hpid.
    destruct Hpid as (g & Hid & Hg). exists g. repeat split; try assumption.
    pose proof (Permutation_in _ (Permutation_sym Hperm) Hg) as Hs.
    rewrite <- Hsplit in Hs. apply in_app_or in Hs.
    destruct Hs as [Hs|Hs]; [|exact Hs].
    exfalso. apply Hnot. rewrite <- Hid. now apply in_map. }
  exists (firstn (Z.to_nat n) sorted).
  split; [|split; [|split; [|split; [|split; [|split; [|split]]]]]].
  - unfold aggregate_popular. destruct (n <=? 0) eqn:E; [|reflexivity].
    apply Z.leb_le in E. lia.
  - assert (H : NoDup (map group_id sorted)).
    { apply (Permutation_NoDup
               (l := map group_id (group_by_product purchases)));
        [apply Permutation_map, Permutation_sym, Hperm | exact Hnd]. }
    rewrite <- Hsplit, map_app in H. now apply NoDup_app_remove_r in H.
  - unfold len. rewrite length_firstn. lia.
  - intros Hp Htop.
    assert (Hs : sorted = []).
    { destruct sorted as [|g l]; [reflexivity|].
      destruct (Z.to_nat n) eqn:E; [lia | discriminate]. }
    destruct purchases as [|p ps]; [easy|].
    assert (Hin : In (product_id p)
                     (map group_id (group_by_product (p :: ps)))).
    { apply Hkeys. now left. }
    apply in_map_iff in Hin. destruct Hin as (g & _ & Hg).
    apply (Permutation_in _ (Permutation_sym Hperm)) in Hg.
    now rewrite Hs in Hg.
  - intros k Hk. apply Hkeys. apply in_map_iff in Hk.
    destruct Hk as (g & <- & Hg). apply in_map.
    apply (Permutation_in _ Hperm). now apply firstn_incl in Hg.
  - intros g Hg. apply Hsum. apply (Permutation_in _ Hperm).
    now apply firstn_incl in Hg.
  - apply (StronglySorted_prefix _ _ (skipn (Z.to_nat n) sorted)).
    now rewrite Hsplit.
  - intros pid Hpid Hnot.
    destruct (Hout pid Hpid Hnot) as (g & Hid & Hg & Hskip). split.
    + unfold len. rewrite length_firstn.
      assert (Hlen : List.length (skipn (Z.to_nat n) sorted) <> 0%nat).
      { destruct (skipn (Z.to_nat n) sorted); [easy | discriminate]. }
      rewrite length_skipn in Hlen. lia.
    + intros g0 Hg0. rewrite <- Hid, <- (Hsum g Hg).
      rewrite <- Hsplit in Hsorted.
      apply (StronglySorted_cross _ _ _ Hsorted g0 g Hg0 Hskip).
Qed.

Lemma find_by_ids_length (products : list Product) (ids : list string) :
  NoDup (map _id products) ->
  len (find (id_in ids) products) <= len ids.
Proof.
  intros Hn. unfold len, find. apply inj_le.
  rewrite <- (length_map _id). apply NoDup_incl_length.
  - now apply NoDup_map_filter.
  - intros x Hx. apply in_map_iff in Hx. destruct Hx as (p & <- & Hp).
    apply filter_In in Hp. destruct Hp as (_ & Hp). now apply mem_In.
Qed.

Lemma popular_products_run (db : DatabaseManager) (limit : Z)
      (top : list PopularItem) :
  aggregate_popular (purchases_collection db) limit = Returned top ->
  top <> [] ->
  _get_popular_products db limit
  = Returned (map serialize_document
                  (find (id_in (map (fun item => ObjectId (group_id item))
                                    top))
                        (products_collection db))).
Proof.
  intros H Hn. unfold _get_popular_products. rewrite H. simpl.
  now destruct top.
Qed.

Lemma popular_products_length (db : DatabaseManager) (limit : Z)
      (out : list Document) :
  0 < limit ->
  NoDup (map _id (products_collection db)) ->
  _get_popular_products db limit = Returned out ->
  len out <= limit.
Proof.
  intros Hl Hn H.
  destruct (aggregate_popular_spec (purchases_collection db) limit Hl)
    as (top & Ha & _ & Hlen & _).
  destruct (list_eq_dec string_dec (map group_id top) []) as [E|E].
  - apply map_eq_nil in E. subst top.
    unfold _get_popular_products in H. rewrite Ha in H. simpl in H.
    injection H as <-. unfold len. rewrite length_map.
    assert (Hc : len (cursor_limit limit
                        (find stock_gt0 (products_collection db)))
                 <= Z.abs limit) by (apply cursor_limit_length; lia).
    unfold len in Hc. rewrite Z.abs_eq in Hc by lia. exact Hc.
  - rewrite (popular_products_run db limit top Ha) in H
      by (intros ->; now apply E).
    injection H as <-.
    pose proof (find_by_ids_length (products_collection db)
                  (map (fun item => ObjectId (group_id item)) top) Hn)
      as Hf.
    unfold len in *. rewrite length_map in *. lia.
Qed.

Lemma popular_products_returns (db : DatabaseManager) (limit : Z) :
  0 < limit -> exists out, _get_popular_products db limit = Returned out.
Proof.
  intros Hl.
  destruct (aggregate_popular_spec (purchases_collection db) limit Hl)
    as (top & Ha & _).
  unfold _get_popular_products. rewrite Ha. simpl.
  destruct top; eexists; reflexivity.
Qed.

(** C3, as the code has it.  For a user without purchase history, when
    the purchase collection is not empty, the call returns the products
    whose ids are among the top [limit] product ids by total purchased
    quantity over all users; the products come in collection order, not
    in order of that quantity. *)
Theorem C3_popular_fallback (db : DatabaseManager) (uid : string)
        (limit : Z) :
  ObjectId_is_valid uid = true ->
  history db uid = [] ->
  purchases_collection db <> [] ->
  0 < limit ->
  let summed := summed_quantity (purchases_collection db) in
  exists top out,
    get_recommendations_for_user db uid limit = Returned out
    /\ out = map serialize_document
                 (filter (fun p => mem (_id p) (map ObjectId top))
                         (products_collection db))
    /\ NoDup top /\ top <> [] /\ len top <= limit
    /\ incl top (map product_id (purchases_collection db))
    /\ StronglySorted (fun a b => summed b <= summed a) top
    /\ (forall pid,
          In pid (map product_id (purchases_collection db)) ->
          ~ In pid top ->
          len top = limit)
    /\ (forall pid,
          In pid (map product_id (purchases_collection db)) ->
          ~ In pid top ->
          forall t, In t top -> summed pid <= summed t).
Proof.
  intros Hv Hh Hp Hl summed.
  destruct (aggregate_popular_spec (purchases_collection db) limit Hl)
    as (items & Ha & Hnd & Hlen & Hne & Hincl & Hsum & Hsorted & Hrest).
  specialize (Hne Hp).
  exists (map group_id items). eexists.
  split; [|split; [|split; [|split; [|split; [|split; [|split; [|split]]]]]]].
  - rewrite no_history_run by assumption.
    apply (popular_products_run db limit items Ha Hne).
  - now rewrite map_map.
  - exact Hnd.
  - intros E. apply Hne. now destruct items.
  - unfold len in *. now rewrite length_map.
  - exact Hincl.
  - apply (StronglySorted_map
             (fun a b => summed (group_id b) <= summed (group_id a))).
    + trivial.
    + eapply StronglySorted_impl_In; [|exact Hsorted].
      intros a b Hina Hinb H. unfold summed.
      now rewrite <- (Hsum a Hina), <- (Hsum b Hinb).
  - intros pid Hpid Hnot. unfold len. rewrite length_map.
    now apply (Hrest pid).
  - intros pid Hpid Hnot t Ht.
    apply in_map_iff in Ht. destruct Ht as (g & <- & Hg).
    unfold summed at 2. rewrite <- (Hsum g Hg).
    now apply (Hrest pid).
Qed.

Lemma C3_popular_fallback_witness :
  exists top out,
    get_recommendations_for_user Outlet.db Outlet.V 1 = Returned out
    /\ out = map serialize_document
                 (filter (fun p => mem (_id p) (map ObjectId top))
                         (products_collection Outlet.db))
    /\ top = [_id Outlet.Y].
Proof.
  destruct (C3_popular_fallback Outlet.db Outlet.V 1)
    as (top & out & H1 & H2 & _ & Hne & Hlen & Hincl & _ & _ & Hrest).
  - reflexivity.
  - reflexivity.
  - discriminate.
  - lia.
  - exists top, out. repeat split; try assumption.
    destruct top as [|t [|t' top']]; [easy | | unfold len in Hlen; simpl in Hlen; lia].
    destruct (string_dec t (_id Outlet.Y)) as [->|Hn]; [reflexivity|].
    exfalso.
    assert (Hq : summed_quantity (purchases_collection Outlet.db)
                                 (_id Outlet.Y)
                 <= summed_quantity (purchases_collection Outlet.db) t).
    { apply (Hrest (_id Outlet.Y)).
      - simpl. tauto.
      - intros [E|[]]. now apply Hn.
      - now left. }
    assert (Ht : t = _id Outlet.X).
    { destruct (Hincl t (or_introl eq_refl)) as [E|[E|[]]];
        [now symmetry | now symmetry in E]. }
    subst t. vm_compute in Hq. now apply Hq.
Defined.

(** The claim C3 as stated fails on the order of the result: the store
    returns X (bought once) before Y (bought five times). *)
Lemma C3_counterexample :
  let summed := summed_quantity (purchases_collection Outlet.db) in
  exists out,
    get_recommendations_for_user Outlet.db Outlet.V 2 = Returned out
    /\ ~ StronglySorted (fun a b => summed (doc_id b) <= summed (doc_id a))
                        out.
Proof.
  eexists. split.
  - vm_compute. reflexivity.
  - intros H. inversion H as [|? ? _ Hf]; subst.
    inversion Hf as [|? ? Hle _]; subst.
    vm_compute in Hle. now apply Hle.
Qed.

(** C10. The popularity fallback resolves the top product ids without a
    stock filter: in the outlet store the sold-out product Y is
    recommended to a user without purchase history. *)
Theorem C10_popular_ignores_stock :
  exists db uid limit out d,
    ObjectId_is_valid uid = true
    /\ history db uid = []
    /\ purchases_collection db <> []
    /\ get_recommendations_for_user db uid limit = Returned out
    /\ In d out
    /\ stock_quantity (doc d) = 0.
Proof.
  exists Outlet.db, Outlet.V, 2,
    [serialize_document Outlet.X; serialize_document Outlet.Y],
    (serialize_document Outlet.Y).
  split; [reflexivity|]. split; [reflexivity|]. split; [discriminate|].
  split; [vm_compute; reflexivity|]. split; [|reflexivity].
  right. now left.
Qed.

(** C9. A call with a positive limit returns at most [limit] elements on
    the has-history path, on the popularity fallback and on the cold-store
    fallback; a call with a well-formed user id does return.  Product ids
    are unique in the products collection, as the store enforces for
    [_id]. *)
Theorem C9_limit_respected (db : DatabaseManager) (uid : string)
        (limit : Z) :
  0 < limit ->
  NoDup (map _id (products_collection db)) ->
  (ObjectId_is_valid uid = true ->
   exists out, get_recommendations_for_user db uid limit = Returned out)
  /\ (forall out,
        get_recommendations_for_user db uid limit = Returned out ->
        len out <= limit)
  /\ (forall preferences purchases,
        len (_get_recommendations_by_preferences db preferences purchases
                                                 limit) <= limit)
  /\ (forall out,
        _get_popular_products db limit = Returned out -> len out <= limit)
  /\ (purchases_collection db = [] ->
      exists out,
        _get_popular_products db limit = Returned out
        /\ out = map serialize_document
                     (firstn (Z.to_nat limit)
                             (filter stock_gt0 (products_collection db)))).
Proof.
  intros Hl Hn.
  assert (Hhist : forall preferences purchases,
             len (_get_recommendations_by_preferences db preferences
                                                      purchases limit)
             <= limit).
  { intros. unfold _get_recommendations_by_preferences.
    apply slice_to_length. lia. }
  assert (Hpop : forall out,
             _get_popular_products db limit = Returned out ->
             len out <= limit).
  { intros out. now apply popular_products_length. }
  repeat split.
  - intros Hv. destruct (list_eq_dec string_dec
                           (map product_id (history db uid)) []) as [E|E].
    + apply map_eq_nil in E. rewrite no_history_run by assumption.
      now apply popular_products_returns.
    + eexists. apply has_history_run; [exact Hv|].
      intros H. apply E. now rewrite H.
  - intros out H. unfold get_recommendations_for_user in H.
    destruct (ObjectId_is_valid uid) eqn:Hv; [|discriminate].
    simpl in H. rewrite get_user_purchases_valid in H by exact Hv.
    simpl in H. destruct (user_purchases db uid).
    + now apply Hpop.
    + injection H as <-. apply Hhist.
  - exact Hhist.
  - exact Hpop.
  - intros E. eexists. split; [|reflexivity].
    unfold _get_popular_products, aggregate_popular. rewrite E.
    destruct (limit <=? 0) eqn:L; [apply Z.leb_le in L; lia|].
    simpl. destruct (Z.to_nat limit) eqn:N; [lia|]. simpl.
    unfold cursor_limit, find.
    destruct (limit =? 0) eqn:Z0; [apply Z.eqb_eq in Z0; lia|].
    rewrite Z.abs_eq, N by lia. reflexivity.
Qed.

Lemma C9_limit_respected_witness :
  (exists out,
      get_recommendations_for_user Scenario.wide Scenario.U 2 = Returned out)
  /\ (forall out,
        get_recommendations_for_user Scenario.wide Scenario.U 2
        = Returned out ->
        len out <= 2).
Proof.
  destruct (C9_limit_respected Scenario.wide Scenario.U 2)
    as (H1 & H2 & _).
  - lia.
  - simpl. repeat constructor; simpl; intuition discriminate.
  - split; [now apply H1 | exact H2].
Defined.

(** ** Users that do not exist *)

(** C1, as the code has it.  The engine never consults the users
    collection: for a well-formed user id that belongs to no user and to
    no purchase record, a call with a positive limit succeeds and returns
    the popularity fallback, or the first [limit] in-stock products when
    the purchase collection is empty. *)
Theorem C1_unknown_user_gets_fallback (db : DatabaseManager) (uid : string)
        (limit : Z) :
  ObjectId_is_valid uid = true ->
  (forall u, In u (users_collection db) -> u_id u <> uid) ->
  history db uid = [] ->
  0 < limit ->
  exists out,
    get_recommendations_for_user db uid limit = Returned out
    /\ _get_popular_products db limit = Returned out
    /\ (purchases_collection db = [] ->
        out = map serialize_document
                  (firstn (Z.to_nat limit)
                          (filter stock_gt0 (products_collection db))))
    /\ (purchases_collection db <> [] ->
        exists top,
          aggregate_popular (purchases_collection db) limit = Returned top
          /\ top <> []
          /\ out = map serialize_document
                       (filter (id_in (map (fun item =>
                                              ObjectId (group_id item)) top))
                               (products_collection db))).
Proof.
  intros Hv _ Hh Hl.
  destruct (popular_products_returns db limit Hl) as (out & Hout).
  exists out. rewrite no_history_run by assumption.
  split; [exact Hout|]. split; [exact Hout|]. split.
  - intros E. revert Hout.
    unfold _get_popular_products, aggregate_popular. rewrite E.
    destruct (limit <=? 0) eqn:L; [apply Z.leb_le in L; lia|].
    simpl. destruct (Z.to_nat limit) eqn:N; [lia|]. simpl.
    unfold cursor_limit, find.
    destruct (limit =? 0) eqn:Z0; [apply Z.eqb_eq in Z0; lia|].
    rewrite Z.abs_eq, N by lia. now intros [= <-].
  - intros Hp.
    destruct (aggregate_popular_spec (purchases_collection db) limit Hl)
      as (top & Ha & _ & _ & Hne & _).
    exists top. split; [exact Ha|]. split; [now apply Hne|].
    rewrite (popular_products_run db limit top Ha (Hne Hp)) in Hout.
    now injection Hout as <-.
Qed.

Lemma C1_unknown_user_gets_fallback_witness :
  exists out,
    get_recommendations_for_user Outlet.db Outlet.V 2 = Returned out
    /\ _get_popular_products Outlet.db 2 = Returned out.
Proof.
  destruct (C1_unknown_user_gets_fallback Outlet.db Outlet.V 2)
    as (out & H1 & H2 & _).
  - reflexivity.
  - intros u [<-|[]]. discriminate.
  - reflexivity.
  - lia.
  - exists out. split; [exact H1 | exact H2].
Defined.

(** The claim C1 as stated fails: V is well formed and belongs to no
    user, yet the call returns two products instead of failing. *)
Lemma C1_counterexample :
  ObjectId_is_valid Outlet.V = true
  /\ (forall u, In u (users_collection Outlet.db) -> u_id u <> Outlet.V)
  /\ get_recommendations_for_user Outlet.db Outlet.V 2
     = Returned [serialize_document Outlet.X; serialize_document Outlet.Y]
  /\ (forall e,
        get_recommendations_for_user Outlet.db Outlet.V 2 <> Raised e)
  /\ _handle_get_user_recommendations Outlet.db (Some Outlet.V) (Some 2)
     = Returned (Recommendations
                   2 [serialize_document Outlet.X;
                      serialize_document Outlet.Y]).
Proof.
  split; [reflexivity|]. split.
  - intros u [<-|[]]. discriminate.
  - split; [vm_compute; reflexivity|].
    split; [|vm_compute; reflexivity].
    intros e. vm_compute. discriminate.
Qed.

(** ** Limits that are not positive *)

Lemma unique_scored_length (preferences : Preferences) (l : list Document) :
  forall seen, len (unique_scored preferences l seen) <= len l.
Proof.
  unfold len. induction l as [|product rest IH]; intros seen; simpl.
  - lia.
  - destruct (negb (mem (_id (doc product)) seen)); simpl.
    + specialize (IH (_id (doc product) :: seen)). lia.
    + specialize (IH seen). lia.
Qed.

Lemma candidates_nonpos (db : DatabaseManager) (preferences : Preferences)
      (purchased : list string) (limit : Z) :
  limit <= 0 ->
  candidates db preferences purchased limit
  = category_strategy db preferences purchased limit.
Proof.
  intros Hl. unfold candidates, piece_type_strategy, price_strategy. simpl.
  assert (H : forall l : list Document, (len l <? limit) = false).
  { intros l. apply Z.ltb_ge. unfold len. lia. }
  rewrite !H, !andb_false_r. now rewrite !app_nil_r.
Qed.

Lemma category_strategy_negative (db : DatabaseManager)
      (preferences : Preferences) (purchased : list string) (limit : Z) :
  limit < 0 ->
  len (category_strategy db preferences purchased limit) <= - limit.
Proof.
  intros Hl. unfold category_strategy.
  destruct (truthy (preferred_category preferences)).
  - assert (Hq : limit <= limit / 3 < 0).
    { split.
      - apply Z.div_le_lower_bound; lia.
      - apply Z.div_lt_upper_bound; lia. }
    unfold len. rewrite length_map.
    match goal with
    | |- context [cursor_limit ?n ?l] =>
        assert (Hc : len (cursor_limit n l) <= Z.abs n)
          by (apply cursor_limit_length; lia)
    end.
    unfold len in Hc. rewrite Z.abs_neq in Hc by lia. lia.
  - unfold len. simpl. lia.
Qed.

Lemma by_preferences_nonpos (db : DatabaseManager)
      (preferences : Preferences) (purchases : list Purchase) (limit : Z) :
  limit <= 0 ->
  _get_recommendations_by_preferences db preferences purchases limit = [].
Proof.
  intros Hl. unfold _get_recommendations_by_preferences.
  apply slice_to_nonpos; [exact Hl|]. intros Hneg.
  unfold len. rewrite sort_desc_length.
  pose proof (unique_scored_length preferences
                (candidates db preferences (map product_id purchases) limit)
                []) as Hu.
  rewrite candidates_nonpos in Hu |- * by exact Hl.
  pose proof (category_strategy_negative db preferences
                (map product_id purchases) limit Hneg) as Hc.
  unfold len in *. lia.
Qed.

(** C2, as the code has it.  The limit is never validated.  With a
    malformed user id the call fails with a ValueError whatever the limit
    and the store; with a well-formed id and a limit that is not positive
    the store is queried and no ValueError is raised: a user with purchase
    history gets the empty list (the handler answers that no
    recommendation is available), and for a user without history the
    store rejects the [$limit] stage of the aggregation, a failure the
    handler does not catch. *)
Theorem C2_nonpositive_limit (db : DatabaseManager) (uid : string)
        (limit : Z) :
  limit <= 0 ->
  (ObjectId_is_valid uid = false ->
   forall db' limit',
     get_recommendations_for_user db' uid limit'
     = Raised (ValueError "ID do usuário inválido"))
  /\ (ObjectId_is_valid uid = true ->
      history db uid <> [] ->
      get_recommendations_for_user db uid limit = Returned []
      /\ _handle_get_user_recommendations db (Some uid) (Some limit)
         = Returned NoRecommendation)
  /\ (ObjectId_is_valid uid = true ->
      history db uid = [] ->
      exists msg,
        get_recommendations_for_user db uid limit
        = Raised (OperationFailure msg)
        /\ _handle_get_user_recommendations db (Some uid) (Some limit)
           = Raised (OperationFailure msg)).
Proof.
  intros Hl. split; [|split].
  - intros Hv db' limit'. unfold get_recommendations_for_user.
    now rewrite Hv.
  - intros Hv Hh.
    assert (H : get_recommendations_for_user db uid limit = Returned []).
    { rewrite has_history_run by assumption.
      now rewrite by_preferences_nonpos. }
    split; [exact H|].
    unfold _handle_get_user_recommendations. simpl. now rewrite H.
  - intros Hv Hh. eexists.
    assert (H : get_recommendations_for_user db uid limit
                = Raised (OperationFailure "the limit must be positive")).
    { rewrite no_history_run by assumption.
      unfold _get_popular_products, aggregate_popular.
      apply Z.leb_le in Hl. now rewrite Hl. }
    split; [exact H|].
    unfold _handle_get_user_recommendations. simpl. now rewrite H.
Qed.

Lemma C2_nonpositive_limit_witness :
  get_recommendations_for_user Scenario.db Scenario.U (-1) = Returned []
  /\ exists msg,
      get_recommendations_for_user Outlet.db Outlet.V (-1)
      = Raised (OperationFailure msg).
Proof.
  split.
  - apply (C2_nonpositive_limit Scenario.db Scenario.U (-1)).
    + lia.
    + reflexivity.
    + vm_compute. discriminate.
  - destruct (C2_nonpositive_limit Outlet.db Outlet.V (-1))
      as (_ & _ & H).
    + lia.
    + destruct H as (msg & H & _).
      * reflexivity.
      * reflexivity.
      * now exists msg.
Defined.

(** The claim C2 as stated fails: with limit -1 the call for user U, who
    has purchase history, returns the empty list and raises nothing, and
    the handler reports no error. *)
Lemma C2_counterexample :
  ObjectId_is_valid Scenario.U = true
  /\ get_recommendations_for_user Scenario.db Scenario.U (-1) = Returned []
  /\ (forall e,
        get_recommendations_for_user Scenario.db Scenario.U (-1)
        <> Raised e)
  /\ _handle_get_user_recommendations Scenario.db (Some Scenario.U)
                                      (Some (-1))
     = Returned NoRecommendation.
Proof.
  split; [reflexivity|]. split; [vm_compute; reflexivity|].
  split; [|vm_compute; reflexivity].
  intros e. vm_compute. discriminate.
Qed.

(** ** Sub-limits of the strategies *)

(** A strategy respects its sub-limit when the sub-limit is not zero. *)
Lemma sublimits_when_nonzero (db : DatabaseManager)
      (preferences : Preferences) (purchased : list string) (limit : Z)
      (recommendations : list Document) :
  (0 < limit / 3 ->
   len (category_strategy db preferences purchased limit) <= limit / 3)
  /\ (0 < (limit - len recommendations) / 2 ->
      len (piece_type_strategy db preferences purchased limit
                               recommendations)
      <= (limit - len recommendations) / 2)
  /\ (len recommendations < limit ->
      len (price_strategy db preferences purchased limit recommendations)
      <= limit - len recommendations).
Proof.
  assert (Hq : forall (q : Product -> bool) (n : Z),
             0 < n ->
             len (map serialize_document
                      (cursor_limit n (find q (products_collection db))))
             <= n).
  { intros q n Hn. unfold len. rewrite length_map.
    assert (Hc : len (cursor_limit n (find q (products_collection db)))
                 <= Z.abs n) by (apply cursor_limit_length; lia).
    unfold len in Hc. rewrite Z.abs_eq in Hc by lia. exact Hc. }
  repeat split.
  - intros H. unfold category_strategy.
    destruct (truthy (preferred_category preferences)).
    + now apply Hq.
    + unfold len. simpl. lia.
  - intros H. unfold piece_type_strategy.
    destruct (truthy (preferred_piece_type preferences) && _).
    + now apply Hq.
    + unfold len at 1. simpl. lia.
  - intros H. unfold price_strategy.
    destruct (Qltb 0 (average_price preferences) && _).
    + apply Hq. lia.
    + unfold len at 1. simpl. lia.
Qed.

(** C4 fails where a sub-limit is zero, which the cursor treats as no
    limit: with limit 2 the category strategy has sub-limit 2 // 3 = 0 and
    contributes all three eligible Casual products of the wide store. *)
Theorem C4_zero_sublimit_is_unlimited :
  let purchases := user_purchases Scenario.wide Scenario.U in
  let profile := _analyze_user_preferences Scenario.wide purchases in
  let purchased := map product_id purchases in
  2 / 3 = 0
  /\ category_strategy Scenario.wide profile purchased 2
     = map serialize_document [Scenario.C; Scenario.D; Scenario.E]
  /\ len (category_strategy Scenario.wide profile purchased 2) = 3
  /\ candidates Scenario.wide profile purchased 2
     = category_strategy Scenario.wide profile purchased 2.
Proof.
  cbv zeta. repeat split; vm_compute; reflexivity.
Qed.
(** * Further properties of the engine *)

(** ** The preferred attribute values *)



Lemma count_NoDup (d : dict Z) (k : string) (q : Z) :
  NoDup (map fst d) -> NoDup (map fst (count d k q)).
Proof. apply dict_set_NoDup. Qed.

Lemma count_not_nil (d : dict Z) (k : string) (q : Z) : count d k q <> [].
Proof.
  unfold count. destruct d as [|[k0 v0] d]; simpl; [discriminate|].
  destruct (String.eqb k0 k); discriminate.
Qed.

Lemma analyze_keys (db : DatabaseManager) (purchases : list Purchase) :
  forall acc,
    NoDup (map fst (acc_categories acc)) ->
    NoDup (map fst (acc_piece_types acc)) ->
    NoDup (map fst (acc_colors acc)) ->
    let out := fold_left (analyze_step db) purchases acc in
    NoDup (map fst (acc_categories out))
    /\ NoDup (map fst (acc_piece_types out))
    /\ NoDup (map fst (acc_colors out))
    /\ (resolved_prices db purchases <> [] ->
        acc_categories out <> [] /\ acc_piece_types out <> []
        /\ acc_colors out <> [])
    /\ (resolved_prices db purchases = [] -> out = acc).
Proof.
  induction purchases as [|purchase rest IH]; intros acc Hc Hp Hk; simpl.
  - repeat split; try assumption; easy.
  - remember (analyze_step db acc purchase) as acc' eqn:Hstep.
    unfold analyze_step in Hstep. unfold resolve.
    destruct (find_one (id_eq (ObjectId (product_id purchase)))
                      (products_collection db))
      as [product|] eqn:E.
    + destruct (IH acc') as (H1 & H2 & H3 & H4 & H5);
        try (subst acc'; simpl; apply count_NoDup; assumption).
      assert (Hne : acc_categories acc' <> [] /\ acc_piece_types acc' <> []
                    /\ acc_colors acc' <> []).
      { subst acc'. simpl. repeat split; apply count_not_nil. }
      repeat split; try assumption; try discriminate;
        destruct (resolved_prices db rest) eqn:R;
        try (rewrite H5 by reflexivity; apply Hne);
        apply H4; discriminate.
    + subst acc'. now apply IH.
Qed.



(** ** What the strategies select *)

Lemma query_selects (db : DatabaseManager) (purchased : list string)
      (q : Product -> bool) (n : Z) (d : Document) :
  In d (map serialize_document
            (cursor_limit n
               (find (fun p => q p && id_nin (map ObjectId purchased) p
                                && stock_gt0 p)
                     (products_collection db)))) ->
  q (doc d) = true.
Proof.
  intros H. apply in_map_iff in H. destruct H as (p & <- & H).
  apply cursor_limit_incl in H. apply filter_In in H.
  destruct H as (_ & Hq).
  apply andb_true_iff in Hq. destruct Hq as (Hq & _).
  apply andb_true_iff in Hq. now destruct Hq as (Hq & _).
Qed.

Lemma truthy_Some (o : option string) :
  truthy o = true -> exists v, o = Some v /\ v <> EmptyString.
Proof.
  destruct o as [v|]; simpl; [|discriminate]. intros H. exists v.
  split; [reflexivity|]. intros ->. discriminate.
Qed.

Lemma field_eq_true (field : Product -> option string) (v : string)
      (p : Product) :
  field_eq field v p = true -> field p = Some v.
Proof.
  unfold field_eq. destruct (field p) as [x|]; [|discriminate].
  intros H. apply String.eqb_eq in H. now subst.
Qed.

(** X2. Every candidate of the category strategy has the preferred
    category and every candidate of the piece-type strategy has the
    preferred piece type; a strategy whose preferred value is absent or
    the empty string contributes nothing. *)
Theorem X2_attribute_strategies_match (db : DatabaseManager)
        (preferences : Preferences) (purchased : list string) (limit : Z)
        (recommendations : list Document) :
  (forall d,
      In d (category_strategy db preferences purchased limit) ->
      exists v, v <> EmptyString
                /\ preferred_category preferences = Some v
                /\ category (doc d) = Some v)
  /\ (forall d,
        In d (piece_type_strategy db preferences purchased limit
                                  recommendations) ->
        exists v, v <> EmptyString
                  /\ preferred_piece_type preferences = Some v
                  /\ piece_type (doc d) = Some v)
  /\ (preferred_category preferences = None
      \/ preferred_category preferences = Some EmptyString ->
      category_strategy db preferences purchased limit = [])
  /\ (preferred_piece_type preferences = None
      \/ preferred_piece_type preferences = Some EmptyString ->
      piece_type_strategy db preferences purchased limit recommendations
      = []).
Proof.
  split; [|split; [|split]].
  - intros d H. unfold category_strategy in H.
    destruct (truthy (preferred_category preferences)) eqn:T; [|easy].
    apply truthy_Some in T. destruct T as (v & E & Hv).
    exists v. repeat split; try assumption.
    apply query_selects in H. rewrite E in H. simpl in H.
    now apply field_eq_true in H.
  - intros d H. unfold piece_type_strategy in H.
    destruct (truthy (preferred_piece_type preferences)) eqn:T; [|easy].
    destruct (len recommendations <? limit); [|easy]. simpl in H.
    apply truthy_Some in T. destruct T as (v & E & Hv).
    exists v. repeat split; try assumption.
    apply query_selects in H. rewrite E in H. simpl in H.
    now apply field_eq_true in H.
  - intros [E|E]; unfold category_strategy; now rewrite E.
  - intros [E|E]; unfold piece_type_strategy; now rewrite E.
Qed.

(** ** Bounds of the score *)

Lemma max0_le_1 (x : Q) : (x <= 1)%Q -> (max0 x <= 1)%Q.
Proof.
  intros H. unfold max0. destruct (Qltb 0 x); [exact H|]. now vm_compute.
Qed.

(** X4. The recommendation score lies between 0 and 7.5, and the price
    part of it never exceeds 1. *)
Theorem X4_score_bounds (product : Document) (preferences : Preferences) :
  (0 <= _calculate_recommendation_score product preferences)%Q
  /\ (_calculate_recommendation_score product preferences <= 15 # 2)%Q
  /\ (price_score (price (doc product)) (average_price preferences) <= 1)%Q.
Proof.
  assert (Hps : (price_score (price (doc product))
                             (average_price preferences) <= 1)%Q).
  { rewrite <- price_score_code.
    destruct (Qltb 0 (average_price preferences)) eqn:A;
      [|now vm_compute].
    apply Qltb_lt in A. apply max0_le_1.
    setoid_replace 1%Q with (1 - 0)%Q at 2 by ring.
    apply Qplus_le_compat; [apply Qle_refl|]. apply Qopp_le_compat.
    apply Qle_shift_div_l; [exact A|]. rewrite Qmult_0_l. apply Qabs_nonneg. }
  split; [apply score_nonneg|]. split; [|exact Hps].
  rewrite score_refines_spec. unfold score_spec.
  set (ps := price_score _ _) in *. clearbody ps.
  destruct (eq_opt (category (doc product)) (preferred_category preferences)),
    (eq_opt (piece_type (doc product)) (preferred_piece_type preferences)),
    (eq_opt (color (doc product)) (preferred_color preferences));
    match goal with
    | |- (?a + ?b + ?c + ps <= _)%Q =>
        apply Qle_trans with (a + b + c + 1)%Q;
          [apply Qplus_le_compat; [apply Qle_refl | exact Hps]
          | now vm_compute]
    end.
Qed.

(** ** Reading a user's purchases *)

Lemma date_lt_asym (x y : Purchase) :
  date_lt x y = true -> date_lt y x = false.
Proof. unfold date_lt. rewrite Z.ltb_lt, Z.ltb_ge. lia. Qed.

Lemma date_ge_trans (x y z : Purchase) :
  date_lt x y = false -> date_lt y z = false -> date_lt x z = false.
Proof. unfold date_lt. rewrite !Z.ltb_ge. lia. Qed.

(** X5. [get_user_purchases] fails with a ValueError on a malformed id
    and otherwise returns exactly the purchase records of that user, each
    as often as it is stored, latest purchase first. *)
Theorem X5_user_purchases (db : DatabaseManager) (uid : string) :
  (ObjectId_is_valid uid = false ->
   get_user_purchases db uid = Raised (ValueError "ID do usuário inválido"))
  /\ (ObjectId_is_valid uid = true ->
      exists purchases,
        get_user_purchases db uid = Returned purchases
        /\ Permutation purchases
                       (filter (fun p => String.eqb (user_id p) uid)
                               (purchases_collection db))
        /\ (forall p, In p purchases <->
                      In p (purchases_collection db) /\ user_id p = uid)
        /\ StronglySorted
             (fun a b => purchase_date b <= purchase_date a) purchases).
Proof.
  split.
  - intros H. unfold get_user_purchases. now rewrite H.
  - intros H. exists (user_purchases db uid).
    split; [now apply get_user_purchases_valid|]. split; [|split].
    + apply sort_desc_perm.
    + apply history_In.
    + eapply StronglySorted_impl;
        [ | apply (sort_desc_sorted date_lt date_lt_asym date_ge_trans) ].
      intros a b. unfold date_lt. now rewrite Z.ltb_ge.
Qed.

(** ** Results of the has-history path *)

(** X6. For a user with purchase history every recommendation is a
    product of the store that is in stock; when no product is in stock
    the call returns the empty list, not an error. *)
Theorem X6_in_stock_or_empty (db : DatabaseManager) (uid : string)
        (limit : Z) :
  ObjectId_is_valid uid = true ->
  history db uid <> [] ->
  exists out,
    get_recommendations_for_user db uid limit = Returned out
    /\ (forall d, In d out ->
                  In (doc d) (products_collection db)
                  /\ 0 < stock_quantity (doc d))
    /\ ((forall p, In p (products_collection db) -> stock_quantity p <= 0) ->
        out = []).
Proof.
  intros Hv Hh. eexists. split; [now apply has_history_run|].
  assert (H : forall d,
             In d (_get_recommendations_by_preferences
                     db (_analyze_user_preferences db (user_purchases db uid))
                     (user_purchases db uid) limit) ->
             In (doc d) (products_collection db)
             /\ 0 < stock_quantity (doc d)).
  { intros d Hd. apply by_preferences_eligible in Hd. tauto. }
  split; [exact H|]. intros Hs.
  destruct (_get_recommendations_by_preferences _ _ _ _) as [|d out];
    [reflexivity|].
  destruct (H d (or_introl eq_refl)) as (Hin & Hpos).
  specialize (Hs _ Hin). lia.
Qed.

Lemma X6_in_stock_or_empty_witness :
  exists out,
    get_recommendations_for_user Scenario.wide Scenario.U 10 = Returned out
    /\ forall d, In d out ->
                 In (doc d) (products_collection Scenario.wide)
                 /\ 0 < stock_quantity (doc d).
Proof.
  destruct (X6_in_stock_or_empty Scenario.wide Scenario.U 10)
    as (out & H1 & H2 & _).
  - reflexivity.
  - vm_compute. discriminate.
  - exists out. split; [exact H1 | exact H2].
Defined.

Lemma slice_to_nil {A : Type} (n : Z) : slice_to n (@nil A) = [].
Proof. unfold slice_to. destruct (0 <=? n); apply firstn_nil. Qed.

Lemma resolved_prices_none (db : DatabaseManager)
      (purchases : list Purchase) :
  (forall p, In p purchases -> resolve db p = None) ->
  resolved_prices db purchases = [].
Proof.
  induction purchases as [|p l IH]; intros H; simpl.
  - reflexivity.
  - rewrite (H p (or_introl eq_refl)). apply IH.
    intros q Hq. apply H. now right.
Qed.

(** X7. A user whose purchase records all refer to products that no
    longer exist has an empty profile, so no strategy runs and the call
    returns the empty list. *)
Theorem X7_unresolved_history_gives_nothing (db : DatabaseManager)
        (uid : string) (limit : Z) :
  ObjectId_is_valid uid = true ->
  history db uid <> [] ->
  (forall p, In p (purchases_collection db) -> user_id p = uid ->
             resolve db p = None) ->
  _analyze_user_preferences db (user_purchases db uid)
  = {| preferred_category := None; preferred_piece_type := None;
       preferred_color := None; average_price := 0;
       categories := []; piece_types := []; colors := [] |}
  /\ get_recommendations_for_user db uid limit = Returned [].
Proof.
  intros Hv Hh Hun.
  assert (Hr : resolved_prices db (user_purchases db uid) = []).
  { apply resolved_prices_none. intros p Hp.
    apply history_In in Hp. now apply Hun. }
  assert (Hp : _analyze_user_preferences db (user_purchases db uid)
               = {| preferred_category := None; preferred_piece_type := None;
                    preferred_color := None; average_price := 0;
                    categories := []; piece_types := []; colors := [] |}).
  { unfold _analyze_user_preferences, analyze_loop.
    destruct (analyze_keys db (user_purchases db uid)
                {| acc_categories := []; acc_piece_types := [];
                   acc_colors := []; acc_price_range := [] |})
      as (_ & _ & _ & _ & Hnil); try apply NoDup_nil.
    now rewrite (Hnil Hr). }
  split; [exact Hp|].
  rewrite has_history_run by assumption. rewrite Hp.
  unfold _get_recommendations_by_preferences, candidates, category_strategy,
    piece_type_strategy, price_strategy. simpl.
  now rewrite slice_to_nil.
Qed.

Lemma X7_unresolved_history_gives_nothing_witness :
  get_recommendations_for_user Cleared.db Scenario.U 10 = Returned [].
Proof.
  apply (X7_unresolved_history_gives_nothing Cleared.db Scenario.U 10).
  - reflexivity.
  - vm_compute. discriminate.
  - intros p [<-|[<-|[]]] _; reflexivity.
Defined.

(** ** The candidate budget *)

Lemma strategy_skipped (db : DatabaseManager) (preferences : Preferences)
      (purchased : list string) (limit : Z)
      (recommendations : list Document) :
  limit <= len recommendations ->
  piece_type_strategy db preferences purchased limit recommendations = []
  /\ price_strategy db preferences purchased limit recommendations = [].
Proof.
  intros H. apply Z.ltb_ge in H.
  unfold piece_type_strategy, price_strategy.
  now rewrite H, !andb_false_r.
Qed.

(** X8. For a limit of at least 3 every strategy stays within its
    sub-limit (limit // 3, then half of what is left, then all of what is
    left), so the candidate list has at most [limit] elements. *)
Theorem X8_candidate_budget (db : DatabaseManager)
        (preferences : Preferences) (purchased : list string) (limit : Z) :
  3 <= limit ->
  let first := category_strategy db preferences purchased limit in
  let second :=
    piece_type_strategy db preferences purchased limit first in
  let third :=
    price_strategy db preferences purchased limit (first ++ second) in
  candidates db preferences purchased limit = first ++ second ++ third
  /\ len first <= limit / 3
  /\ len second <= (limit - len first) / 2
  /\ len third <= limit - len first - len second
  /\ len (candidates db preferences purchased limit) <= limit.
Proof.
  intros Hl first second third.
  assert (Hc : candidates db preferences purchased limit
               = first ++ second ++ third).
  { unfold candidates. simpl. now rewrite <- app_assoc. }
  assert (H3 : 0 < limit / 3) by (apply Z.div_str_pos; lia).
  assert (H1 : len first <= limit / 3).
  { now apply (sublimits_when_nonzero db preferences purchased limit []). }
  assert (Hq : limit / 3 <= limit - 2).
  { apply Z.div_le_upper_bound; lia. }
  assert (H2 : len second <= (limit - len first) / 2).
  { apply (sublimits_when_nonzero db preferences purchased limit first).
    apply Z.div_str_pos. lia. }
  assert (Hh : (limit - len first) / 2 <= limit - len first).
  { apply Z.div_le_upper_bound; lia. }
  assert (Happ : len (first ++ second) = len first + len second).
  { unfold len. rewrite length_app. lia. }
  assert (H4 : len third <= limit - len first - len second).
  { destruct (Z_lt_le_dec (len (first ++ second)) limit) as [Hlt|Hge].
    - pose proof (sublimits_when_nonzero db preferences purchased limit
                    (first ++ second)) as (_ & _ & H).
      specialize (H Hlt). fold third in H. lia.
    - destruct (strategy_skipped db preferences purchased limit
                  (first ++ second) Hge) as (_ & E).
      fold third in E. rewrite E. unfold len at 1. simpl. lia. }
  repeat split; try assumption.
  rewrite Hc. unfold len in *. rewrite !length_app. lia.
Qed.

Lemma X8_candidate_budget_witness :
  len (candidates Scenario.wide
                  (_analyze_user_preferences Scenario.wide Scenario.lines)
                  (map product_id Scenario.lines) 3) <= 3.
Proof.
  apply (X8_candidate_budget Scenario.wide
           (_analyze_user_preferences Scenario.wide Scenario.lines)
           (map product_id Scenario.lines) 3).
  lia.
Defined.

(** ** The fallback results *)

(** X10. For a user without purchase history and a positive limit the
    call returns products of the store without a recommendation score,
    and no product twice when product ids are unique in the store. *)
Theorem X10_fallback_documents (db : DatabaseManager) (uid : string)
        (limit : Z) :
  ObjectId_is_valid uid = true ->
  history db uid = [] ->
  0 < limit ->
  exists out,
    get_recommendations_for_user db uid limit = Returned out
    /\ (forall d, In d out ->
                  In (doc d) (products_collection db)
                  /\ recommendation_score d = None)
    /\ (NoDup (map _id (products_collection db)) ->
        NoDup (map doc_id out)).
Proof.
  intros Hv Hh Hl. rewrite no_history_run by assumption.
  assert (Hmap : forall l : list Product,
             incl l (products_collection db) ->
             (forall d, In d (map serialize_document l) ->
                        In (doc d) (products_collection db)
                        /\ recommendation_score d = None)).
  { intros l Hi d Hd. apply in_map_iff in Hd.
    destruct Hd as (p & <- & Hp). split; [now apply Hi | reflexivity]. }
  assert (Hids : forall l : list Product,
             map doc_id (map serialize_document l) = map _id l).
  { intros l. rewrite map_map. reflexivity. }
  destruct (aggregate_popular_spec (purchases_collection db) limit Hl)
    as (top & Ha & _).
  unfold _get_popular_products. rewrite Ha. simpl.
  destruct top as [|g top].
  - eexists. split; [reflexivity|]. split.
    + apply Hmap. intros p Hp. apply cursor_limit_incl in Hp.
      now apply filter_In in Hp.
    + intros Hn. rewrite Hids. unfold cursor_limit.
      assert (Hf : NoDup (map _id (find stock_gt0 (products_collection db))))
        by now apply NoDup_map_filter.
      destruct (limit =? 0); [exact Hf|].
      rewrite <- (firstn_skipn (Z.to_nat (Z.abs limit))
                               (find stock_gt0 (products_collection db))),
        map_app in Hf.
      now apply NoDup_app_remove_r in Hf.
  - eexists. split; [reflexivity|]. split.
    + apply Hmap. intros p Hp. now apply filter_In in Hp.
    + intros Hn. rewrite Hids. now apply NoDup_map_filter.
Qed.

Lemma X10_fallback_documents_witness :
  exists out,
    get_recommendations_for_user Outlet.db Outlet.V 2 = Returned out
    /\ forall d, In d out -> recommendation_score d = None.
Proof.
  destruct (X10_fallback_documents Outlet.db Outlet.V 2)
    as (out & H1 & H2 & _).
  - reflexivity.
  - reflexivity.
  - lia.
  - exists out. split; [exact H1|]. intros d Hd. now apply H2.
Defined.

(** ** The handler *)

(** X9. The handler turns a ValueError of the engine into an error text
    and lets every other exception through.  Where the store answers its
    queries, the limit is positive (10 when none is given) and product
    ids are unique, the handler answers: an error text exactly when the
    user id is missing or rejected by [ObjectId.is_valid], and otherwise
    either that nothing is available or a list whose announced count is
    its length, between 1 and the limit. *)
Theorem X9_handler_replies (db : DatabaseManager) (user_id : option string)
        (limit : option Z) :
  (forall uid e,
      user_id = Some uid ->
      get_recommendations_for_user db uid (get limit 10) = Raised e ->
      _handle_get_user_recommendations db user_id limit
      = match e with
        | ValueError msg => Returned (ErrorText msg)
        | OperationFailure _ => Raised e
        end)
  /\ (0 < get limit 10 ->
      NoDup (map _id (products_collection db)) ->
      exists reply,
        _handle_get_user_recommendations db user_id limit = Returned reply
        /\ match reply with
           | ErrorText msg =>
               msg = "ID do usuário inválido"%string
               /\ (user_id = None
                   \/ exists uid, user_id = Some uid
                                  /\ ObjectId_is_valid uid = false)
           | NoRecommendation =>
               exists uid,
                 user_id = Some uid
                 /\ ObjectId_is_valid uid = true
                 /\ get_recommendations_for_user db uid (get limit 10)
                    = Returned []
           | Recommendations count recommendations =>
               exists uid,
                 user_id = Some uid
                 /\ ObjectId_is_valid uid = true
                 /\ get_recommendations_for_user db uid (get limit 10)
                    = Returned recommendations
                 /\ count = len recommendations
                 /\ 1 <= count <= get limit 10
           end).
Proof.
  split.
  - intros uid e -> He. unfold _handle_get_user_recommendations.
    rewrite He. now destruct e.
  - intros Hl Hn. unfold _handle_get_user_recommendations.
    destruct user_id as [uid|].
    + destruct (ObjectId_is_valid uid) eqn:Hv.
      * assert (Hret : exists out,
                   get_recommendations_for_user db uid (get limit 10)
                   = Returned out /\ len out <= get limit 10).
        { destruct (list_eq_dec string_dec
                      (map product_id (history db uid)) []) as [E|E].
          - apply map_eq_nil in E.
            destruct (popular_products_returns db (get limit 10) Hl)
              as (out & Ho).
            exists out. rewrite no_history_run by assumption.
            split; [exact Ho|]. now apply (popular_products_length db).
          - eexists. split.
            + apply has_history_run; [exact Hv|].
              intros H. apply E. now rewrite H.
            + unfold _get_recommendations_by_preferences.
              apply slice_to_length. lia. }
        destruct Hret as (out & Ho & Hlen). rewrite Ho.
        destruct out as [|d out].
        -- eexists. split; [reflexivity|]. now exists uid.
        -- eexists. split; [reflexivity|]. exists uid.
           repeat split; try assumption.
           unfold len. simpl. lia.
      * unfold get_recommendations_for_user. rewrite Hv. simpl.
        eexists. split; [reflexivity|]. split; [reflexivity|].
        right. now exists uid.
    + eexists. split; [reflexivity|]. split; [reflexivity|]. now left.
Qed.

Lemma X9_handler_replies_witness :
  exists reply,
    _handle_get_user_recommendations Scenario.db (Some Scenario.U) None
    = Returned reply.
Proof.
  destruct (X9_handler_replies Scenario.db (Some Scenario.U) None)
    as (_ & H).
  destruct H as (reply & H & _).
  - simpl. lia.
  - simpl. repeat constructor; simpl; intuition discriminate.
  - exists reply. exact H.
Defined.

(** * Properties of the services around the engine *)

(** ** Creating a purchase *)

Lemma update_one_ids (q : Product -> bool) (delta : Z)
      (coll : list Product) :
  map _id (update_one q (inc_stock delta) coll) = map _id coll.
Proof.
  induction coll as [|x rest IH]; simpl; [reflexivity|].
  destruct (q x); simpl; [reflexivity | now rewrite IH].
Qed.

Lemma update_one_find (pid : string) (delta : Z) (coll : list Product)
      (product : Product) :
  find_one (id_eq pid) coll = Some product ->
  find_one (id_eq pid) (update_one (id_eq pid) (inc_stock delta) coll)
  = Some (inc_stock delta product).
Proof.
  unfold find_one. induction coll as [|x rest IH]; simpl; [discriminate|].
  destruct (id_eq pid x) eqn:E; simpl.
  - intros [= <-]. unfold id_eq in *. simpl. now rewrite E.
  - rewrite E. exact IH.
Qed.

Lemma update_one_others (pid : string) (delta : Z) (coll : list Product) :
  filter (fun p => negb (id_eq pid p))
         (update_one (id_eq pid) (inc_stock delta) coll)
  = filter (fun p => negb (id_eq pid p)) coll.
Proof.
  induction coll as [|x rest IH]; simpl; [reflexivity|].
  destruct (id_eq pid x) eqn:E; simpl.
  - unfold id_eq in *. simpl. now rewrite E.
  - rewrite E. simpl. now rewrite IH.
Qed.

Lemma update_one_In (pid : string) (delta : Z) (coll : list Product)
      (product : Product) :
  find_one (id_eq pid) coll = Some product ->
  forall p,
    In p (update_one (id_eq pid) (inc_stock delta) coll) ->
    In p coll \/ p = inc_stock delta product.
Proof.
  unfold find_one. induction coll as [|x rest IH]; simpl; [discriminate|].
  destruct (id_eq pid x) eqn:E; simpl.
  - intros [= <-] p [<-|H]; [now right | left; now right].
  - intros Hf p [<-|H]; [left; now left|].
    destruct (IH Hf p H) as [H'|H']; [left; now right | now right].
Qed.

(** What a successful call checked and what it hands back. *)
(** What a successful call checked and what it hands back. *)
Lemma create_purchase_returned (manager : option DatabaseManager)
      (db' : DatabaseManager) (now : Z)
      (arg_user_id arg_product_id : option string) (arg_quantity : option Z)
      (receipt : PurchaseDoc) :
  create_purchase manager now arg_user_id arg_product_id arg_quantity
  = Returned (receipt, db') ->
  exists db uid pid user product,
    manager = Some db
    /\ arg_user_id = Some uid /\ arg_product_id = Some pid
    /\ ObjectId_is_valid uid = true /\ ObjectId_is_valid pid = true
    /\ 0 < get arg_quantity 1
    /\ find_one (fun u => String.eqb (u_id u) (ObjectId uid))
                (users_collection db) = Some user
    /\ find_one (id_eq (ObjectId pid)) (products_collection db)
       = Some product
    /\ get arg_quantity 1 <= stock_quantity product
    /\ stored receipt
       = {| user_id := uid; product_id := pid;
            quantity := get arg_quantity 1; purchase_date := now |}
    /\ user_name receipt = name user
    /\ product_price receipt = price product
    /\ total_price receipt
       = (price product * inject_Z (get arg_quantity 1%Z))%Q
    /\ db' = {| users_collection := users_collection db;
                products_collection :=
                  update_one (id_eq (ObjectId pid))
                             (inc_stock (- get arg_quantity 1))
                             (products_collection db);
                purchases_collection :=
                  insert_one (stored receipt) (purchases_collection db) |}.
Proof.
  unfold create_purchase.
  destruct manager as [db|]; [|discriminate].
  destruct arg_user_id as [uid|]; [|discriminate].
  destruct (ObjectId_is_valid uid) eqn:Vu; [|discriminate]. simpl.
  destruct arg_product_id as [pid|]; [|discriminate].
  destruct (ObjectId_is_valid pid) eqn:Vp; [|discriminate]. simpl.
  destruct (get arg_quantity 1 <=? 0) eqn:Q; [discriminate|].
  apply Z.leb_gt in Q.
  destruct (find_one _ (users_collection db)) as [user|] eqn:U;
    [|discriminate].
  destruct (find_one (id_eq (ObjectId pid)) (products_collection db))
    as [product|] eqn:P; [|discriminate].
  destruct (stock_quantity product <? get arg_quantity 1) eqn:S;
    [discriminate|].
  apply Z.ltb_ge in S. intros [= <- <-].
  exists db, uid, pid, user, product. simpl. repeat split; assumption.
Qed.

(** X11. [create_purchase] succeeds exactly when the manager is
    connected, both ids are accepted by [ObjectId.is_valid], the quantity
    (1 when absent) is positive, a user has the ObjectId of the user id
    and the first product with the ObjectId of the product id has at
    least that much stock; every failure is a ValueError with one of its
    seven messages; without a connection it is the connection message,
    and a quantity above the stock is rejected as insufficient stock. *)
Theorem X11_create_purchase_checks (manager : option DatabaseManager)
        (now : Z) (arg_user_id arg_product_id : option string)
        (arg_quantity : option Z) :
  ((exists result,
       create_purchase manager now arg_user_id arg_product_id arg_quantity
       = Returned result)
   <-> exists db uid pid user product,
       manager = Some db
       /\ arg_user_id = Some uid /\ arg_product_id = Some pid
       /\ ObjectId_is_valid uid = true /\ ObjectId_is_valid pid = true
       /\ 0 < get arg_quantity 1
       /\ find_one (fun u => String.eqb (u_id u) (ObjectId uid))
                   (users_collection db) = Some user
       /\ find_one (id_eq (ObjectId pid)) (products_collection db)
          = Some product
       /\ get arg_quantity 1 <= stock_quantity product)
  /\ (forall e,
        create_purchase manager now arg_user_id arg_product_id arg_quantity
        = Raised e ->
        exists msg,
          e = ValueError msg
          /\ In msg ["Conexão com banco de dados não disponível";
                     "ID do usuário inválido";
                     "ID do produto inválido";
                     "Quantidade deve ser maior que zero";
                     "Usuário não encontrado";
                     "Produto não encontrado";
                     "Estoque insuficiente"]%string)
  /\ (manager = None ->
      create_purchase manager now arg_user_id arg_product_id arg_quantity
      = Raised (ValueError "Conexão com banco de dados não disponível"))
  /\ (forall db uid pid user product,
        manager = Some db ->
        arg_user_id = Some uid -> arg_product_id = Some pid ->
        ObjectId_is_valid uid = true -> ObjectId_is_valid pid = true ->
        0 < get arg_quantity 1 ->
        find_one (fun u => String.eqb (u_id u) (ObjectId uid))
                 (users_collection db) = Some user ->
        find_one (id_eq (ObjectId pid)) (products_collection db)
        = Some product ->
        stock_quantity product < get arg_quantity 1 ->
        create_purchase manager now arg_user_id arg_product_id arg_quantity
        = Raised (ValueError "Estoque insuficiente")).
Proof.
  split; [split|split; [|split]].
  - intros ([receipt db'] & H).
    destruct (create_purchase_returned _ _ _ _ _ _ _ H)
      as (db & uid & pid & user & product & H0 & H1 & H2 & H3 & H4 & H5
          & H6 & H7 & H8 & _).
    exists db, uid, pid, user, product. repeat split; assumption.
  - intros (db & uid & pid & user & product & -> & -> & -> & Vu & Vp & Q
            & U & P & S).
    unfold create_purchase. rewrite Vu, Vp, U, P. simpl.
    apply Z.leb_gt in Q. rewrite Q.
    apply Z.ltb_ge in S. rewrite S. eexists. reflexivity.
  - intros e. unfold create_purchase.
    destruct manager as [db|];
      [|intros [= <-]; eexists; split; [reflexivity | simpl; tauto]].
    destruct arg_user_id as [uid|];
      [|intros [= <-]; eexists; split; [reflexivity | simpl; tauto]].
    destruct (ObjectId_is_valid uid); simpl;
      [|intros [= <-]; eexists; split; [reflexivity | simpl; tauto]].
    destruct arg_product_id as [pid|];
      [|intros [= <-]; eexists; split; [reflexivity | simpl; tauto]].
    destruct (ObjectId_is_valid pid); simpl;
      [|intros [= <-]; eexists; split; [reflexivity | simpl; tauto]].
    destruct (get arg_quantity 1 <=? 0);
      [intros [= <-]; eexists; split; [reflexivity | simpl; tauto]|].
    destruct (find_one _ (users_collection db));
      [|intros [= <-]; eexists; split; [reflexivity | simpl; tauto]].
    destruct (find_one (id_eq (ObjectId pid)) (products_collection db));
      [|intros [= <-]; eexists; split; [reflexivity | simpl; tauto]].
    destruct (stock_quantity p <? get arg_quantity 1);
      [intros [= <-]; eexists; split; [reflexivity | simpl; tauto]
      | discriminate].
  - now intros ->.
  - intros db uid pid user product -> -> -> Vu Vp Q U P S.
    unfold create_purchase. rewrite Vu, Vp, U, P. simpl.
    apply Z.leb_gt in Q. rewrite Q.
    apply Z.ltb_lt in S. now rewrite S.
Qed.

Lemma update_one_total (pid : string) (delta : Z) (coll : list Product)
      (product : Product) :
  find_one (id_eq pid) coll = Some product ->
  total_stock (update_one (id_eq pid) (inc_stock delta) coll)
  = total_stock coll + delta.
Proof.
  unfold find_one. induction coll as [|x rest IH]; simpl; [discriminate|].
  destruct (id_eq pid x) eqn:E; simpl.
  - intros _. lia.
  - intros H. rewrite (IH H). lia.
Qed.

(** X12. A successful purchase appends one purchase record, leaves the
    users alone, and takes the quantity off the stock of the first
    product with the ObjectId of the product id and off nothing else:
    ids and order of the products are kept, the units on the shelf drop
    by the quantity, and no stock becomes negative if none was. *)
Theorem X12_create_purchase_effect (db db' : DatabaseManager) (now : Z)
        (arg_user_id arg_product_id : option string)
        (arg_quantity : option Z) (receipt : PurchaseDoc) :
  create_purchase (Some db) now arg_user_id arg_product_id arg_quantity
  = Returned (receipt, db') ->
  let bought := stored receipt in
  let oid := ObjectId (product_id bought) in
  arg_user_id = Some (user_id bought)
  /\ arg_product_id = Some (product_id bought)
  /\ quantity bought = get arg_quantity 1
  /\ purchase_date bought = now
  /\ users_collection db' = users_collection db
  /\ purchases_collection db' = purchases_collection db ++ [bought]
  /\ map _id (products_collection db') = map _id (products_collection db)
  /\ (exists product,
        find_one (id_eq oid) (products_collection db) = Some product
        /\ find_one (id_eq oid) (products_collection db')
           = Some (inc_stock (- quantity bought) product)
        /\ 0 <= stock_quantity product - quantity bought
        /\ total_price receipt
           = (price product * inject_Z (quantity bought))%Q)
  /\ filter (fun p => negb (id_eq oid p)) (products_collection db')
     = filter (fun p => negb (id_eq oid p)) (products_collection db)
  /\ total_stock (products_collection db')
     = total_stock (products_collection db) - quantity bought
  /\ ((forall p, In p (products_collection db) -> 0 <= stock_quantity p) ->
      forall p, In p (products_collection db') -> 0 <= stock_quantity p).
Proof.
  intros H bought oid.
  destruct (create_purchase_returned _ _ _ _ _ _ _ H)
    as (db0 & uid & pid & user & product & [= <-] & -> & -> & Vu & Vp & Q
        & U & P & S & Hb & _ & _ & Ht & ->).
  subst oid bought. rewrite Hb. simpl.
  split; [reflexivity|]. split; [reflexivity|]. split; [reflexivity|].
  split; [reflexivity|]. split; [reflexivity|]. split; [reflexivity|].
  split; [apply update_one_ids|]. split.
  - exists product. split; [exact P|]. split; [now apply update_one_find|].
    split; [lia | exact Ht].
  - split; [apply update_one_others|]. split.
    + rewrite (update_one_total (ObjectId pid) _ _ product P). lia.
    + intros Hs p Hp.
      destruct (update_one_In (ObjectId pid) _ _ product P p Hp)
        as [Hin| ->].
      * now apply Hs.
      * simpl. lia.
Qed.

Lemma X12_create_purchase_effect_witness :
  exists receipt db',
    create_purchase (Some Scenario.db) 3 (Some Scenario.U)
                    (Some "66BB0000000000000000000C"%string) (Some 4)
    = Returned (receipt, db')
    /\ total_stock (products_collection db')
       = total_stock (products_collection Scenario.db) - 4.
Proof.
  eexists. eexists.
  assert (H : create_purchase (Some Scenario.db) 3 (Some Scenario.U)
                              (Some "66BB0000000000000000000C"%string)
                              (Some 4)
              = Returned (_, _)) by (vm_compute; reflexivity).
  split; [exact H|].
  destruct (X12_create_purchase_effect _ _ _ _ _ _ _ H)
    as (_ & _ & _ & _ & _ & _ & _ & _ & _ & Ht & _).
  exact Ht.
Defined.



(** ** The purchase history *)

(** X14. With a positive limit [get_purchase_history] returns the
    [limit] latest purchases (all of them when there are fewer), latest
    first: every purchase left out is no later than any purchase
    returned.  With limit 0 it returns every purchase. *)
Theorem X14_purchase_history (db : DatabaseManager) (limit : Z) :
  (0 < limit ->
   exists rest,
     Permutation (get_purchase_history db limit ++ rest)
                 (purchases_collection db)
     /\ StronglySorted (fun a b => purchase_date b <= purchase_date a)
                       (get_purchase_history db limit)
     /\ (forall a b, In a (get_purchase_history db limit) -> In b rest ->
                     purchase_date b <= purchase_date a)
     /\ len (get_purchase_history db limit)
        = Z.min limit (len (purchases_collection db)))
  /\ (limit = 0 ->
      Permutation (get_purchase_history db limit) (purchases_collection db)).
Proof.
  assert (Hs : StronglySorted (fun a b => purchase_date b <= purchase_date a)
                 (sort_desc date_lt (purchases_collection db))).
  { eapply StronglySorted_impl;
      [ | apply (sort_desc_sorted date_lt date_lt_asym date_ge_trans) ].
    intros a b. unfold date_lt. now rewrite Z.ltb_ge. }
  split.
  - intros Hl. unfold get_purchase_history, cursor_limit.
    destruct (limit =? 0) eqn:E; [apply Z.eqb_eq in E; lia|].
    rewrite Z.abs_eq by lia.
    set (sorted := sort_desc date_lt (purchases_collection db)) in *.
    pose proof (firstn_skipn (Z.to_nat limit) sorted) as Hsplit.
    exists (skipn (Z.to_nat limit) sorted). split; [|split; [|split]].
    + rewrite Hsplit. apply sort_desc_perm.
    + apply (StronglySorted_prefix _ _ (skipn (Z.to_nat limit) sorted)).
      now rewrite Hsplit.
    + rewrite <- Hsplit in Hs. apply (StronglySorted_cross _ _ _ Hs).
    + unfold len. rewrite length_firstn. unfold sorted.
      rewrite sort_desc_length. lia.
  - intros ->. unfold get_purchase_history, cursor_limit. simpl.
    apply sort_desc_perm.
Qed.

(** ** Regular expressions *)

Lemma append_nil_r (s : string) : append s EmptyString = s.
Proof. induction s as [|c s IH]; simpl; [reflexivity | now rewrite IH]. Qed.

Lemma append_assoc (a b c : string) :
  append (append a b) c = append a (append b c).
Proof. induction a as [|x a IH]; simpl; [reflexivity | now rewrite IH]. Qed.

Lemma append_eq_nil (a b : string) :
  append a b = EmptyString -> a = EmptyString /\ b = EmptyString.
Proof. destruct a; simpl; [now split | discriminate]. Qed.

Lemma nullable_lang (r : Re.regex) :
  Re.nullable r = true <-> lang r EmptyString.
Proof.
  split.
  - induction r; simpl; intros H; try discriminate.
    + constructor.
    + apply andb_true_iff in H. destruct H as (H1 & H2).
      apply (lang_cat r1 r2 EmptyString EmptyString); auto.
    + apply orb_true_iff in H. destruct H as [H|H];
        [apply lang_alt_l | apply lang_alt_r]; auto.
    + constructor.
  - intros H. remember EmptyString as e eqn:E.
    induction H; simpl; try reflexivity; try discriminate.
    + apply append_eq_nil in E. destruct E as (-> & ->).
      now rewrite IHlang1, IHlang2.
    + now rewrite IHlang.
    + rewrite IHlang by exact E. apply orb_true_r.
Qed.

Lemma deriv_sound (c : ascii) (r : Re.regex) :
  forall s, lang (Re.deriv c r) s -> lang r (String c s).
Proof.
  induction r; simpl; intros s H.
  - inversion H.
  - inversion H.
  - destruct (p c) eqn:P; inversion H; subst. now constructor.
  - destruct (Re.nullable r1) eqn:N.
    + inversion H as [| |? ? ? ? | ? ? ? Hl | ? ? ? Hr | |]; subst.
      * inversion Hl as [| |? ? u v Hu Hv | | | |]; subst.
        apply (lang_cat r1 r2 (String c u) v); auto.
      * apply (lang_cat r1 r2 EmptyString (String c s));
          [now apply nullable_lang | auto].
    + inversion H as [| |? ? u v Hu Hv | | | |]; subst.
      apply (lang_cat r1 r2 (String c u) v); auto.
  - inversion H; subst; [apply lang_alt_l | apply lang_alt_r]; auto.
  - inversion H as [| |? ? u v Hu Hv | | | |]; subst.
    apply (lang_star_cons r (String c u) v); auto.
Qed.

Lemma deriv_complete (c : ascii) (r : Re.regex) (t : string) :
  lang r t -> forall s, t = String c s -> lang (Re.deriv c r) s.
Proof.
  intros H. induction H; intros s0 E; simpl.
  - discriminate.
  - injection E as -> <-. rewrite H. constructor.
  - destruct u as [|x u]; simpl in E.
    + subst v. assert (N : Re.nullable r = true) by now apply nullable_lang.
      rewrite N. apply lang_alt_r. now apply IHlang2.
    + injection E as -> <-.
      assert (Hc : lang (Re.Cat (Re.deriv c r) s) (append u v)).
      { constructor; [now apply IHlang1 | exact H0]. }
      destruct (Re.nullable r); [now apply lang_alt_l | exact Hc].
  - apply lang_alt_l. now apply IHlang.
  - apply lang_alt_r. now apply IHlang.
  - discriminate.
  - destruct u as [|x u]; simpl in E.
    + now apply IHlang2.
    + injection E as -> <-. constructor; [now apply IHlang1 | exact H0].
Qed.

Lemma fullmatch_lang (s : string) :
  forall r, Re.fullmatch r s = true <-> lang r s.
Proof.
  induction s as [|c s IH]; intros r; simpl.
  - apply nullable_lang.
  - rewrite IH. split.
    + apply deriv_sound.
    + intros H. now apply (deriv_complete c r (String c s)).
Qed.

Lemma lang_cat_inv (r s : Re.regex) (w : string) :
  lang (Re.Cat r s) w <->
  exists u v, w = append u v /\ lang r u /\ lang s v.
Proof.
  split.
  - intros H. inversion H; subst. now exists u, v.
  - intros (u & v & -> & Hu & Hv). now constructor.
Qed.

Lemma lang_class_inv (p : ascii -> bool) (w : string) :
  lang (Re.Class p) w <-> exists c, w = String c EmptyString /\ p c = true.
Proof.
  split.
  - intros H. inversion H; subst. now exists c.
  - intros (c & -> & H). now constructor.
Qed.

Lemma lang_star_class (p : ascii -> bool) (w : string) :
  lang (Re.Star (Re.Class p)) w <-> all_chars p w = true.
Proof.
  split.
  - intros H. remember (Re.Star (Re.Class p)) as r eqn:E.
    induction H; try discriminate.
    + reflexivity.
    + injection E as ->.
      apply lang_class_inv in H. destruct H as (c & -> & Hc).
      simpl. rewrite Hc. now apply IHlang2.
  - induction w as [|c w IH]; simpl; intros H.
    + constructor.
    + apply andb_true_iff in H. destruct H as (Hc & Hw).
      apply (lang_star_cons (Re.Class p) (String c EmptyString) w);
        [now constructor | auto].
Qed.

Lemma lang_plus_class (p : ascii -> bool) (w : string) :
  lang (Re.plus (Re.Class p)) w <->
  w <> EmptyString /\ all_chars p w = true.
Proof.
  unfold Re.plus. rewrite lang_cat_inv. split.
  - intros (u & v & -> & Hu & Hv).
    apply lang_class_inv in Hu. destruct Hu as (c & -> & Hc).
    apply lang_star_class in Hv. simpl. rewrite Hc, Hv. now split.
  - intros (Hne & H). destruct w as [|c w]; [easy|]. simpl in H.
    apply andb_true_iff in H. destruct H as (Hc & Hw).
    exists (String c EmptyString), w. repeat split.
    + now constructor.
    + now apply lang_star_class.
Qed.

Lemma lang_two_or_more_class (p : ascii -> bool) (w : string) :
  lang (Re.two_or_more (Re.Class p)) w <->
  (2 <= String.length w)%nat /\ all_chars p w = true.
Proof.
  unfold Re.two_or_more. rewrite lang_cat_inv. split.
  - intros (u & v & -> & Hu & Hv).
    apply lang_class_inv in Hu. destruct Hu as (c & -> & Hc).
    apply lang_plus_class in Hv. destruct Hv as (Hne & Hv).
    simpl. rewrite Hc, Hv. split; [|reflexivity].
    destruct v; [easy | simpl; lia].
  - intros (Hlen & H). destruct w as [|c [|c' w]]; simpl in Hlen; try lia.
    simpl in H. apply andb_true_iff in H. destruct H as (Hc & Hw).
    exists (String c EmptyString), (String c' w). repeat split.
    + now constructor.
    + apply lang_plus_class. split; [discriminate | exact Hw].
Qed.

(** ** UserValidator *)

(** X15. [is_valid_email] accepts exactly the strings of the form
    local@domain.tld, optionally followed by one newline, where local is a
    non-empty run of letters, digits and [._%+-], domain a non-empty run
    of letters, digits, dots and hyphens, and tld at least two letters. *)
Theorem X15_email_shape (email : string) :
  is_valid_email email = true <->
  exists local domain tld tail,
    email = append local
              (append (String "@" EmptyString)
                 (append domain
                    (append (String "." EmptyString) (append tld tail))))
    /\ email_shape local domain tld tail.
Proof.
  unfold is_valid_email, Re.match_anchored, EMAIL_PATTERN, email_shape.
  rewrite fullmatch_lang. split.
  - intros H.
    apply lang_cat_inv in H. destruct H as (body & tail & -> & H & Ht).
    apply lang_cat_inv in H. destruct H as (local & w1 & -> & Hl & H).
    apply lang_cat_inv in H. destruct H as (at_ & w2 & -> & Ha & H).
    apply lang_cat_inv in H. destruct H as (domain & w3 & -> & Hd & H).
    apply lang_cat_inv in H. destruct H as (dot & tld & -> & Hdot & Htld).
    apply lang_plus_class in Hl. apply lang_plus_class in Hd.
    apply lang_two_or_more_class in Htld.
    apply lang_class_inv in Ha. destruct Ha as (a & -> & Ea).
    apply lang_class_inv in Hdot. destruct Hdot as (b & -> & Eb).
    apply Ascii.eqb_eq in Ea, Eb. subst a b.
    exists local, domain, tld, tail. split.
    + now rewrite !append_assoc.
    + repeat split; try tauto.
      inversion Ht as [| | | ? ? ? He | ? ? ? Hn | |]; subst.
      * inversion He. now left.
      * apply lang_class_inv in Hn. destruct Hn as (c & -> & Ec).
        apply Ascii.eqb_eq in Ec. subst c. now right.
  - intros (local & domain & tld & tail & -> & Hl1 & Hl2 & Hd1 & Hd2
            & Ht1 & Ht2 & Htail).
    replace (append local
               (append (String "@" EmptyString)
                  (append domain
                     (append (String "." EmptyString) (append tld tail)))))
      with (append
              (append local
                 (append (String "@" EmptyString)
                    (append domain
                       (append (String "." EmptyString) tld))))
              tail)
      by now rewrite !append_assoc.
    constructor.
    + constructor; [now apply lang_plus_class|].
      constructor; [constructor; apply Ascii.eqb_refl|].
      constructor; [now apply lang_plus_class|].
      constructor; [constructor; apply Ascii.eqb_refl|].
      now apply lang_two_or_more_class.
    + destruct Htail as [-> | ->].
      * apply lang_alt_l. constructor.
      * apply lang_alt_r. constructor. apply Ascii.eqb_refl.
Qed.

(** X16. [validate_user_data] reports no error exactly when the name is
    present and not empty and the e-mail is absent, empty or well formed;
    a missing name is reported before a bad e-mail. *)
Theorem X16_validate_user_data (arg_name arg_email : option string) :
  (validate_user_data arg_name arg_email = [] <->
   truthy arg_name = true
   /\ (truthy arg_email = false
       \/ exists email, arg_email = Some email
                        /\ is_valid_email email = true))
  /\ (truthy arg_name = false ->
      exists rest,
        validate_user_data arg_name arg_email
        = "Nome é obrigatório"%string :: rest)
  /\ (forall email,
        arg_email = Some email -> email <> EmptyString ->
        is_valid_email email = false ->
        In "Email inválido"%string
           (validate_user_data arg_name arg_email)).
Proof.
  unfold validate_user_data. split; [split|split].
  - intros H.
    destruct (truthy arg_name);
      destruct (truthy arg_email
                && negb (is_valid_email (get arg_email EmptyString))) eqn:C;
      simpl in H; try discriminate.
    split; [reflexivity|].
    destruct (truthy arg_email) eqn:T; [|now left]. right.
    destruct arg_email as [email|]; [|discriminate]. simpl in C.
    exists email. split; [reflexivity|].
    now apply negb_false_iff in C.
  - intros (Hn & [He | (email & -> & He)]); rewrite Hn; simpl.
    + now rewrite He.
    + rewrite He. simpl. now rewrite andb_false_r.
  - intros Hn. rewrite Hn. simpl.
    destruct (truthy arg_email && _); eexists; reflexivity.
  - intros email -> Hne Hv. simpl. rewrite Hv.
    assert (T : negb (String.eqb email EmptyString) = true).
    { apply negb_true_iff, String.eqb_neq. exact Hne. }
    rewrite T. simpl. apply in_or_app. right. now left.
Qed.

(** ** ProductValidator *)

Lemma app_if_nil {A : Type} (b : bool) (l : list A) (x : A) :
  (if b then l ++ [x] else l) = [] <-> b = false /\ l = [].
Proof.
  destruct b; split.
  - intros H. now apply app_eq_nil in H.
  - intros (H & _). discriminate.
  - now split.
  - now intros (_ & ->).
Qed.

Lemma not_allowed_false (field : option string) (values : list string) :
  ProductValidator.not_allowed field values = false <-> allowed field values.
Proof.
  unfold ProductValidator.not_allowed, allowed.
  destruct field as [v|]; simpl.
  - destruct (String.eqb v EmptyString) eqn:E; simpl.
    + apply String.eqb_eq in E. subst. split; [tauto | reflexivity].
    + apply String.eqb_neq in E. rewrite negb_false_iff, mem_In. split.
      * intros H. right. right. now exists v.
      * intros [H|[H|(w & H & Hin)]]; try discriminate.
        -- injection H as ->. contradiction.
        -- now injection H as ->.
  - split; [tauto | reflexivity].
Qed.

Lemma bad_price_false (p : option Q) :
  ProductValidator.bad_price p = false <->
  exists x, p = Some x /\ (0 < x)%Q.
Proof.
  unfold ProductValidator.bad_price. destruct p as [x|].
  - rewrite orb_false_iff. split.
    + intros (_ & H). exists x. split; [reflexivity|].
      apply Qnot_le_lt. intros Hle. apply Qle_bool_iff in Hle. congruence.
    + intros (y & [= <-] & Hy). split.
      * apply not_true_iff_false. intros H. apply Qeq_bool_iff in H.
        rewrite H in Hy. now apply Qlt_irrefl in Hy.
      * apply not_true_iff_false. intros H. apply Qle_bool_iff in H.
        now apply Qlt_not_le in Hy.
  - split; [discriminate | intros (x & H & _); discriminate].
Qed.

(** X17. [validate_product_data] reports no error exactly when the name
    is present and not empty, the price is present and positive, each of
    category, piece type, colour and size is absent, empty or one of the
    allowed values, and the stock quantity is absent or not negative. *)
Theorem X17_validate_product_data (data : ProductValidator.Data) :
  ProductValidator.validate_product_data data = [] <->
  truthy (ProductValidator.name data) = true
  /\ (exists x, ProductValidator.price data = Some x /\ (0 < x)%Q)
  /\ allowed (ProductValidator.category data) ProductValidator.CATEGORIES
  /\ allowed (ProductValidator.piece_type data) ProductValidator.PIECE_TYPES
  /\ allowed (ProductValidator.color data) ProductValidator.COLORS
  /\ allowed (ProductValidator.size data) ProductValidator.SIZES
  /\ (ProductValidator.stock_quantity data = None
      \/ exists q, ProductValidator.stock_quantity data = Some q /\ 0 <= q).
Proof.
  unfold ProductValidator.validate_product_data. cbv zeta.
  rewrite <- !not_allowed_false, <- bad_price_false.
  assert (Hs : forall l : list string,
             match ProductValidator.stock_quantity data with
             | Some q =>
                 if q <? 0
                 then l ++ ["Quantidade em estoque não pode ser negativa"%string]
                 else l
             | None => l
             end = []
             <-> (ProductValidator.stock_quantity data = None
                  \/ exists q, ProductValidator.stock_quantity data = Some q
                               /\ 0 <= q)
                 /\ l = []).
  { intros l. destruct (ProductValidator.stock_quantity data) as [q|].
    - rewrite app_if_nil, Z.ltb_ge. split.
      + intros (H & ->). split; [|reflexivity]. right. now exists q.
      + intros ([H|(q' & [= <-] & H)] & ->); [discriminate | now split].
    - split; [intros ->; split; [now left | reflexivity] | now intros (_ & ->)]. }
  rewrite Hs, !app_if_nil, negb_false_iff. simpl. tauto.
Qed.

(** ** ExportService *)

Lemma double_quotes_inj (a : string) :
  forall b, Csv.double_quotes a = Csv.double_quotes b -> a = b.
Proof.
  induction a as [|x a IH]; intros [|y b]; simpl.
  - reflexivity.
  - destruct (Ascii.eqb y Csv.dquote); discriminate.
  - destruct (Ascii.eqb x Csv.dquote); discriminate.
  - destruct (Ascii.eqb x Csv.dquote) eqn:X;
      destruct (Ascii.eqb y Csv.dquote) eqn:Y; intros H.
    + apply Ascii.eqb_eq in X, Y. subst. injection H as H.
      now rewrite (IH b H).
    + injection H as H _. subst y. now rewrite Ascii.eqb_refl in Y.
    + injection H as H _. subst x. now rewrite Ascii.eqb_refl in X.
    + injection H as -> H. now rewrite (IH b H).
Qed.

Lemma append_length (a b : string) :
  String.length (append a b) = (String.length a + String.length b)%nat.
Proof. induction a as [|x a IH]; simpl; [reflexivity | now rewrite IH]. Qed.

Lemma append_inv_tail (q a : string) :
  forall b, append a q = append b q -> a = b.
Proof.
  induction a as [|x a IH]; intros [|y b]; simpl; intros H.
  - reflexivity.
  - apply (f_equal String.length) in H. simpl in H.
    rewrite append_length in H. lia.
  - apply (f_equal String.length) in H. simpl in H.
    rewrite append_length in H. lia.
  - injection H as -> H. now rewrite (IH b H).
Qed.

(** X18. The escaping of a CSV cell loses nothing: two values whose cells
    are equal are equal.  A value without [;], [,], a double quote or a
    newline is its own cell. *)
Theorem X18_csv_cell_injective (v w : string) :
  (Csv.cell v = Csv.cell w -> v = w)
  /\ (Csv.contains ";" v = false -> Csv.contains Csv.dquote v = false ->
      Csv.contains "010" v = false -> Csv.contains "," v = false ->
      Csv.cell v = v).
Proof.
  assert (Hq : forall u,
             Csv.cell u = append Csv.quote
                                 (append (Csv.double_quotes u) Csv.quote)
             \/ (Csv.cell u = u /\ Csv.contains Csv.dquote u = false)).
  { intros u. unfold Csv.cell.
    destruct (Csv.contains ";" u); [now left|].
    destruct (Csv.contains Csv.dquote u); [now left|].
    destruct (Csv.contains "010" u); [now left|].
    destruct (Csv.contains "," u); [now left | now right]. }
  split.
  - intros H.
    destruct (Hq v) as [Ev|(Ev & Nv)], (Hq w) as [Ew|(Ew & Nw)];
      rewrite Ev, Ew in H.
    + unfold Csv.quote in H. simpl in H. injection H as H.
      apply append_inv_tail in H. now apply double_quotes_inj.
    + subst w. unfold Csv.quote in Nw. simpl in Nw. discriminate.
    + subst v. unfold Csv.quote in Nv. simpl in Nv. discriminate.
    + exact H.
  - intros H1 H2 H3 H4. unfold Csv.cell. now rewrite H1, H2, H3, H4.
Qed.

(** ** Deleting users and products *)

Lemma delete_one_incl {A : Type} (q : A -> bool) (coll : list A) :
  incl (delete_one q coll) coll.
Proof.
  induction coll as [|x rest IH]; simpl; [easy|].
  destruct (q x); intros y Hy.
  - now right.
  - destruct Hy as [<-|Hy]; [now left | right; now apply IH].
Qed.

Lemma delete_one_length {A : Type} (q : A -> bool) (coll : list A) :
  (existsb q coll = false -> delete_one q coll = coll)
  /\ (existsb q coll = true ->
      S (List.length (delete_one q coll)) = List.length coll).
Proof.
  induction coll as [|x rest (IH0 & IH1)]; simpl.
  - split; [reflexivity | discriminate].
  - destruct (q x) eqn:E; simpl.
    + split; [discriminate | reflexivity].
    + split.
      * intros H. now rewrite (IH0 H).
      * intros H. now rewrite (IH1 H).
Qed.

Lemma deleted_count_spec {A : Type} (q : A -> bool) (coll : list A) :
  (existsb q coll = false ->
   delete_one q coll = coll /\ deleted_count q coll = 0)
  /\ (existsb q coll = true -> deleted_count q coll = 1).
Proof.
  destruct (delete_one_length q coll) as (H0 & H1).
  unfold deleted_count, len. split.
  - intros H. rewrite (H0 H). split; [reflexivity | lia].
  - intros H. specialize (H1 H). lia.
Qed.

Lemma delete_one_gone (pid : string) (coll : list Product) :
  NoDup (map _id coll) ->
  existsb (id_eq pid) coll = true ->
  forall p, In p (delete_one (id_eq pid) coll) -> _id p <> pid.
Proof.
  induction coll as [|x rest IH]; simpl; [discriminate|].
  intros Hn He p Hp. inversion Hn as [|? ? Hx Hn']; subst.
  destruct (id_eq pid x) eqn:E.
  - unfold id_eq in E. apply String.eqb_eq in E. intros Ep.
    apply Hx. rewrite E, <- Ep. now apply in_map.
  - simpl in He. destruct Hp as [<-|Hp].
    + unfold id_eq in E. now apply String.eqb_neq in E.
    + now apply IH.
Qed.

(** Whatever the engine returns is a product of the store. *)
Lemma returned_from_store (db : DatabaseManager) (uid : string) (limit : Z)
      (out : list Document) :
  get_recommendations_for_user db uid limit = Returned out ->
  forall d, In d out -> In (doc d) (products_collection db).
Proof.
  unfold get_recommendations_for_user.
  destruct (ObjectId_is_valid uid) eqn:Hv; [|discriminate]. simpl.
  rewrite get_user_purchases_valid by exact Hv. simpl.
  destruct (user_purchases db uid) as [|p l] eqn:E.
  - unfold _get_popular_products, aggregate_popular.
    destruct (limit <=? 0); [discriminate|]. simpl.
    destruct (firstn _ _); intros [= <-] d Hd;
      apply in_map_iff in Hd; destruct Hd as (x & <- & Hx); simpl.
    + apply cursor_limit_incl in Hx. now apply filter_In in Hx.
    + now apply filter_In in Hx.
  - intros [= <-] d Hd. now apply by_preferences_eligible in Hd.
Qed.

(** The engine reads products and purchases only. *)
Lemma engine_ignores_users (db db' : DatabaseManager) (uid : string)
      (limit : Z) :
  products_collection db' = products_collection db ->
  purchases_collection db' = purchases_collection db ->
  get_recommendations_for_user db' uid limit
  = get_recommendations_for_user db uid limit.
Proof.
  intros Hp Hq.
  unfold get_recommendations_for_user, get_user_purchases,
    _get_popular_products, _get_recommendations_by_preferences,
    _analyze_user_preferences, analyze_loop, candidates,
    category_strategy, piece_type_strategy, price_strategy.
  rewrite Hq.
  replace (analyze_step db') with (analyze_step db).
  - now rewrite Hp.
  - unfold analyze_step. now rewrite Hp.
Qed.

(** X19. [delete_product] fails on an id that [ObjectId.is_valid]
    rejects and on an id whose ObjectId no product has; otherwise it
    removes one product, and when product ids are unique no call for
    recommendations, for any user and limit, returns a product with the
    deleted ObjectId afterwards, however the call spelled the id. *)
Theorem X19_deleted_product_never_recommended (db : DatabaseManager)
        (pid : string) :
  NoDup (map _id (products_collection db)) ->
  (ObjectId_is_valid pid = false ->
   delete_product db pid = Raised (ValueError "ID inválido"))
  /\ (ObjectId_is_valid pid = true ->
      (forall p, In p (products_collection db) -> _id p <> ObjectId pid) ->
      delete_product db pid = Raised (ValueError "Produto não encontrado"))
  /\ (ObjectId_is_valid pid = true ->
      (exists p, In p (products_collection db) /\ _id p = ObjectId pid) ->
      exists db',
        delete_product db pid = Returned (true, db')
        /\ len (products_collection db')
           = len (products_collection db) - 1
        /\ users_collection db' = users_collection db
        /\ purchases_collection db' = purchases_collection db
        /\ (forall p, In p (products_collection db') ->
                      In p (products_collection db)
                      /\ _id p <> ObjectId pid)
        /\ forall uid limit out,
            get_recommendations_for_user db' uid limit = Returned out ->
            forall d, In d out -> doc_id d <> ObjectId pid).
Proof.
  intros Hn. unfold delete_product. set (oid := ObjectId pid).
  split; [|split].
  - intros Hv. now rewrite Hv.
  - intros Hv Hno. rewrite Hv. simpl.
    assert (He : existsb (id_eq oid) (products_collection db) = false).
    { apply not_true_iff_false. intros H. apply existsb_exists in H.
      destruct H as (p & Hp & E). unfold id_eq in E.
      apply String.eqb_eq in E. now apply (Hno p). }
    destruct (deleted_count_spec (id_eq oid) (products_collection db))
      as (H0 & _). destruct (H0 He) as (_ & ->). reflexivity.
  - intros Hv (p & Hp & E). rewrite Hv. simpl.
    assert (He : existsb (id_eq oid) (products_collection db) = true).
    { apply existsb_exists. exists p. split; [exact Hp|].
      unfold id_eq. now apply String.eqb_eq. }
    destruct (deleted_count_spec (id_eq oid) (products_collection db))
      as (_ & H1). pose proof (H1 He) as Hc. rewrite Hc. simpl.
    eexists. split; [reflexivity|]. simpl.
    split; [unfold deleted_count in Hc; lia|].
    split; [reflexivity|]. split; [reflexivity|]. split.
    + intros q Hq. split.
      * now apply (delete_one_incl (id_eq oid)).
      * now apply (delete_one_gone oid (products_collection db)).
    + intros uid limit out Ho d Hd.
      pose proof (returned_from_store _ _ _ _ Ho d Hd) as Hin. simpl in Hin.
      now apply (delete_one_gone oid (products_collection db)).
Qed.

Lemma X19_deleted_product_never_recommended_witness :
  exists db',
    delete_product Scenario.wide "66BB0000000000000000000E"
    = Returned (true, db')
    /\ forall uid limit out,
        get_recommendations_for_user db' uid limit = Returned out ->
        forall d, In d out -> doc_id d <> _id Scenario.E.
Proof.
  destruct (X19_deleted_product_never_recommended
              Scenario.wide "66BB0000000000000000000E")
    as (_ & _ & H).
  - simpl. repeat constructor; simpl; intuition discriminate.
  - destruct H as (db' & H1 & _ & _ & _ & _ & H2).
    + reflexivity.
    + exists Scenario.E. split; [simpl; tauto | reflexivity].
    + exists db'. split; [exact H1 | exact H2].
Defined.

(** X20. [delete_user] fails on an id that [ObjectId.is_valid] rejects
    and on an id whose ObjectId no user has; otherwise it removes one
    user and nothing else: the purchase records of the deleted user
    stay, and every call for recommendations, also for the deleted user,
    answers as before. *)
Theorem X20_delete_user_keeps_history (db : DatabaseManager) (uid : string) :
  (ObjectId_is_valid uid = false ->
   delete_user db uid = Raised (ValueError "ID inválido"))
  /\ (ObjectId_is_valid uid = true ->
      (forall u, In u (users_collection db) -> u_id u <> ObjectId uid) ->
      delete_user db uid = Raised (ValueError "Usuário não encontrado"))
  /\ (ObjectId_is_valid uid = true ->
      (exists u, In u (users_collection db) /\ u_id u = ObjectId uid) ->
      exists db',
        delete_user db uid = Returned (true, db')
        /\ len (users_collection db') = len (users_collection db) - 1
        /\ products_collection db' = products_collection db
        /\ purchases_collection db' = purchases_collection db
        /\ history db' uid = history db uid
        /\ forall uid' limit,
            get_recommendations_for_user db' uid' limit
            = get_recommendations_for_user db uid' limit).
Proof.
  unfold delete_user. set (oid := ObjectId uid). split; [|split].
  - intros Hv. now rewrite Hv.
  - intros Hv Hno. rewrite Hv. simpl.
    assert (He : existsb (fun u => String.eqb (u_id u) oid)
                         (users_collection db) = false).
    { apply not_true_iff_false. intros H. apply existsb_exists in H.
      destruct H as (u & Hu & E). apply String.eqb_eq in E.
      now apply (Hno u). }
    destruct (deleted_count_spec (fun u => String.eqb (u_id u) oid)
                                 (users_collection db)) as (H0 & _).
    destruct (H0 He) as (_ & ->). reflexivity.
  - intros Hv (u & Hu & E). rewrite Hv. simpl.
    assert (He : existsb (fun u => String.eqb (u_id u) oid)
                         (users_collection db) = true).
    { apply existsb_exists. exists u. split; [exact Hu|].
      now apply String.eqb_eq. }
    destruct (deleted_count_spec (fun u => String.eqb (u_id u) oid)
                                 (users_collection db)) as (_ & H1).
    pose proof (H1 He) as Hc. rewrite Hc. simpl.
    eexists. split; [reflexivity|]. simpl.
    split; [unfold deleted_count in Hc; lia|].
    split; [reflexivity|]. split; [reflexivity|]. split; [reflexivity|].
    intros uid' limit. now apply engine_ignores_users.
Qed.
